(** * Voice-turn orchestration of the BRYTT dashboard

    A shallow embedding of the control logic of
    [src/components/AutonomousVoiceAgent.tsx], with the properties of the
    voice-turn loop stated and proved over it, followed by the command panel
    of [src/components/VoiceInterface.tsx], the task counters of the
    dashboard, the task log of [src/components/CustomerContext.tsx] and the
    agent runs of [src/components/AgentCards.tsx].

    Conventions.
    - A JavaScript string is the list of its UTF-16 code units.
    - A JavaScript number holding an integer (step index, clock reading) is a
      [Z]; [progress] is an IEEE-754 binary64 value ([float]).
    - React state cells ([useState]) form the record [State]; a callback
      created by [useCallback] reads the cells of the render that created it,
      so every handler takes that render's snapshot [env : State] besides the
      live store it updates.
    - Calls that leave the component (remote inference, task store, console,
      timers, speech synthesis) are appended to an effect log in call
      order. *)

From Stdlib Require Import List ZArith NArith Bool Lia String Ascii.
From Stdlib Require Import Floats.PrimFloat Numbers.Cyclic.Int63.Uint63.
From Stdlib Require DecimalString.
Import ListNotations.

Set Implicit Arguments.

(* ===================================================================== *)
(** ** JavaScript strings *)
(* ===================================================================== *)

Module JS.

(** UTF-16 code units. *)
Definition jsstring := list N.

(** An ASCII literal of the source as code units. *)
Definition lit (s : string) : jsstring :=
  map N_of_ascii (list_ascii_of_string s).

Definition in_range (lo hi c : N) : bool :=
  (N.leb lo c && N.leb c hi)%bool.

Fixpoint starts_with (sub s : jsstring) : bool :=
  match sub, s with
  | [], _ => true
  | _ :: _, [] => false
  | a :: sub', b :: s' => (N.eqb a b && starts_with sub' s')%bool
  end.

(** [String.prototype.includes]: [sub] occurs somewhere in [s]. *)
Fixpoint includes (s sub : jsstring) : bool :=
  match s with
  | [] => starts_with sub []
  | _ :: s' => (starts_with sub s || includes s' sub)%bool
  end.

(** [String.prototype.toLowerCase] on one code unit.  The letters A-Z are
    mapped to a-z; kana, ideographs, digits and punctuation have no case.
    Cased letters outside Basic Latin are left as they are: none of them
    occurs in the inputs evaluated below. *)
Definition lower_unit (c : N) : N :=
  if in_range 0x41 0x5A c then (c + 32)%N else c.

Definition toLowerCase (s : jsstring) : jsstring := map lower_unit s.

(** ECMAScript WhiteSpace and LineTerminator code units, as stripped by
    [String.prototype.trim]. *)
Definition isWhiteSpace (c : N) : bool :=
  (in_range 0x09 0x0D c || N.eqb c 0x20 || N.eqb c 0xA0 || N.eqb c 0x1680
   || in_range 0x2000 0x200A c || N.eqb c 0x2028 || N.eqb c 0x2029
   || N.eqb c 0x202F || N.eqb c 0x205F || N.eqb c 0x3000
   || N.eqb c 0xFEFF)%bool.

Fixpoint trimStart (s : jsstring) : jsstring :=
  match s with
  | [] => []
  | c :: s' => if isWhiteSpace c then trimStart s' else s
  end.

Definition trim (s : jsstring) : jsstring :=
  rev (trimStart (rev (trimStart s))).

(** Truthiness of a string: non-empty. *)
Definition truthy (s : jsstring) : bool :=
  match s with [] => false | _ :: _ => true end.

End JS.

Import JS.

(* ===================================================================== *)
(** ** The host page and the platform speech synthesizer *)
(* ===================================================================== *)

Inductive Lang := ja | en.

(** What the component finds around it: ['speechSynthesis' in window], a
    [SpeechRecognition] constructor on [window], and whether the parent
    passed the optional [onTaskComplete] prop. *)
Record Host := {
  speechSynthesis_in_window : bool;
  speechRecognition_in_window : bool;
  onTaskComplete_given : bool
}.

(** A [SpeechSynthesisUtterance]: its text and its [lang] ([ja] stands for
    ['ja-JP'], [en] for ['en-US']).  Rate, pitch, volume and the voice picked
    from [getVoices()] do not influence control flow and are left out. *)
Record Utterance := { utext : jsstring; ulang : Lang }.

(** The platform's utterance queue (Web Speech API): [speak] adds the
    utterance to the end of the queue, [cancel] removes every utterance from
    it, and the utterance at the head is the one being spoken. *)
Module Synth.

Definition queue := list Utterance.

Definition speak (u : Utterance) (q : queue) : queue := q ++ [u].

Definition cancel (q : queue) : queue := [].

(** The utterance being spoken comes to its end. *)
Definition finish (q : queue) : queue := tl q.

End Synth.

(* ===================================================================== *)
(** ** [AutonomousVoiceAgent.tsx]: data model *)
(* ===================================================================== *)

Module AutonomousVoiceAgent.

Inductive Speaker := user | agent.
Inductive TaskType := onboarding | followup | logging.
Inductive Status := active | completed | failed.

Definition Status_eqb (a b : Status) : bool :=
  match a, b with
  | active, active | completed, completed | failed, failed => true
  | _, _ => false
  end.

(** [interface ConversationTurn] ([actions] is never written by the
    component and is left out). *)
Record ConversationTurn := {
  turn_id : Z;                     (* the clock reading the id string renders *)
  turn_type : Speaker;
  content : jsstring;
  timestamp : Z;
  turn_language : Lang;
  reasoning : option jsstring;
  confidence : option float
}.

(** [interface TaskContext] ([customerInfo] is never written and is left
    out). *)
Record TaskContext := {
  task_id : Z;                     (* the clock reading the id string renders *)
  task_type : TaskType;
  status : Status;
  steps : list jsstring;
  currentStep : Z;
  progress : float
}.

(** The [useState] cells.  [audioLevel] only feeds the level meter and is
    left out. *)
Record State := {
  isActive : bool;
  isListening : bool;
  isSpeaking : bool;
  isProcessing : bool;
  keigoMode : bool;
  language : Lang;
  conversation : list ConversationTurn;
  currentTask : option TaskContext;
  transcript : jsstring;
  agentThinking : jsstring
}.

(** Callbacks handed to [setTimeout], with the render they close over. *)
Inductive Timer :=
| WelcomeTimer (message : jsstring) (lang : Lang)
| ConversationTimer (env : State).

(** The [useRef] cells, each non-null or null: the recognition object, the
    microphone stream, the audio context with its analyser and source node;
    and the two timeout handles. *)
Record Refs := {
  recognitionRef : bool;
  streamRef : bool;
  audioContextRef : bool;
  processingTimeoutRef : option Timer;
  conversationTimeoutRef : option Timer
}.

(** The values interpolated into the prompt template of [handleUserInput];
    the fixed text of the template is not kept. *)
Record Prompt := {
  prompt_context : list (Speaker * jsstring);
  prompt_task : option (TaskType * Z * Z);
  prompt_input : jsstring;
  prompt_language : Lang;
  prompt_keigo : bool
}.

(** Argument of [blink.db.tasks.create] ([userId] comes from
    [blink.auth.me()]). *)
Record TaskRow := {
  row_id : Z;
  row_taskType : TaskType;
  row_status : Status;
  row_currentStep : Z;
  row_totalSteps : Z;
  row_progress : float;
  row_language : Lang;
  row_keigoMode : bool;
  row_createdAt : Z
}.

(** Second argument of [blink.db.tasks.update]. *)
Record TaskPatch := {
  patch_currentStep : Z;
  patch_progress : float;
  patch_status : Status;
  patch_updatedAt : Z
}.

(** Calls that leave the component. *)
Inductive Effect :=
| GenerateText (prompt : Prompt) (maxTokens : Z)
| AuthMe
| DbCreate (row : TaskRow)
| DbUpdate (id : Z) (patch : TaskPatch)
| OnTaskComplete (task : TaskContext)
| SynthSpeak (u : Utterance)
| GenerateSpeech (text : jsstring) (voice : jsstring)
| AudioPlay
| ConsoleError (message : jsstring)
| ConsoleWarn (message : jsstring)
| SetTimeout (t : Timer) (ms : Z)
| ClearTimeout (t : Timer)
| GetUserMedia
| RecognitionStop
| StreamStop
| AudioContextClose.

(** The component instance together with what it acts on. *)
Record World := {
  host : Host;
  react : State;
  refs : Refs;
  synth : Synth.queue;
  log : list Effect
}.

(** How the awaited calls after the inference call turn out:
    [blink.auth.me()] and the task-store call of [updateTaskContext], and
    the remote speech call of [speakResponse]. *)
Record IO := { auth_ok : bool; db_ok : bool; speech_ok : bool }.

Inductive MicOutcome := MicGranted | MicDenied.

(* --------------------------------------------------------------------- *)
(** *** State updates *)
(* --------------------------------------------------------------------- *)

Definition with_isActive (b : bool) (s : State) : State :=
  {| isActive := b; isListening := isListening s; isSpeaking := isSpeaking s;
     isProcessing := isProcessing s; keigoMode := keigoMode s;
     language := language s; conversation := conversation s;
     currentTask := currentTask s; transcript := transcript s;
     agentThinking := agentThinking s |}.

Definition with_isListening (b : bool) (s : State) : State :=
  {| isActive := isActive s; isListening := b; isSpeaking := isSpeaking s;
     isProcessing := isProcessing s; keigoMode := keigoMode s;
     language := language s; conversation := conversation s;
     currentTask := currentTask s; transcript := transcript s;
     agentThinking := agentThinking s |}.

Definition with_isSpeaking (b : bool) (s : State) : State :=
  {| isActive := isActive s; isListening := isListening s; isSpeaking := b;
     isProcessing := isProcessing s; keigoMode := keigoMode s;
     language := language s; conversation := conversation s;
     currentTask := currentTask s; transcript := transcript s;
     agentThinking := agentThinking s |}.

Definition with_isProcessing (b : bool) (s : State) : State :=
  {| isActive := isActive s; isListening := isListening s;
     isSpeaking := isSpeaking s; isProcessing := b; keigoMode := keigoMode s;
     language := language s; conversation := conversation s;
     currentTask := currentTask s; transcript := transcript s;
     agentThinking := agentThinking s |}.

Definition with_conversation (c : list ConversationTurn) (s : State) : State :=
  {| isActive := isActive s; isListening := isListening s;
     isSpeaking := isSpeaking s; isProcessing := isProcessing s;
     keigoMode := keigoMode s; language := language s; conversation := c;
     currentTask := currentTask s; transcript := transcript s;
     agentThinking := agentThinking s |}.

Definition with_currentTask (t : option TaskContext) (s : State) : State :=
  {| isActive := isActive s; isListening := isListening s;
     isSpeaking := isSpeaking s; isProcessing := isProcessing s;
     keigoMode := keigoMode s; language := language s;
     conversation := conversation s; currentTask := t;
     transcript := transcript s; agentThinking := agentThinking s |}.

Definition with_transcript (t : jsstring) (s : State) : State :=
  {| isActive := isActive s; isListening := isListening s;
     isSpeaking := isSpeaking s; isProcessing := isProcessing s;
     keigoMode := keigoMode s; language := language s;
     conversation := conversation s; currentTask := currentTask s;
     transcript := t; agentThinking := agentThinking s |}.

Definition with_agentThinking (t : jsstring) (s : State) : State :=
  {| isActive := isActive s; isListening := isListening s;
     isSpeaking := isSpeaking s; isProcessing := isProcessing s;
     keigoMode := keigoMode s; language := language s;
     conversation := conversation s; currentTask := currentTask s;
     transcript := transcript s; agentThinking := t |}.

Definition with_react (f : State -> State) (w : World) : World :=
  {| host := host w; react := f (react w); refs := refs w; synth := synth w;
     log := log w |}.

Definition with_refs (f : Refs -> Refs) (w : World) : World :=
  {| host := host w; react := react w; refs := f (refs w); synth := synth w;
     log := log w |}.

Definition with_synth (f : Synth.queue -> Synth.queue) (w : World) : World :=
  {| host := host w; react := react w; refs := refs w; synth := f (synth w);
     log := log w |}.

Definition with_log (f : list Effect -> list Effect) (w : World) : World :=
  {| host := host w; react := react w; refs := refs w; synth := synth w;
     log := f (log w) |}.

(* --------------------------------------------------------------------- *)
(** *** Handlers run in a state monad over [World] *)
(* --------------------------------------------------------------------- *)

Definition M (A : Type) : Type := World -> A * World.

Definition ret {A} (a : A) : M A := fun w => (a, w).

Definition bind {A B} (m : M A) (k : A -> M B) : M B :=
  fun w => let (a, w') := m w in k a w'.

Notation "x <- m ;; k" := (bind m (fun x => k))
  (at level 61, m at next level, right associativity).
Notation "m ;; k" := (bind m (fun _ => k))
  (at level 61, right associativity).

Definition exec {A} (m : M A) (w : World) : World := snd (m w).

Definition when (b : bool) (m : M unit) : M unit := if b then m else ret tt.

Definition getHost : M Host := fun w => (host w, w).
Definition getRefs : M Refs := fun w => (refs w, w).

Definition emit (e : Effect) : M unit :=
  fun w => (tt, with_log (fun l => l ++ [e]) w).

Definition setIsActive (b : bool) : M unit :=
  fun w => (tt, with_react (with_isActive b) w).
Definition setIsListening (b : bool) : M unit :=
  fun w => (tt, with_react (with_isListening b) w).
Definition setIsSpeaking (b : bool) : M unit :=
  fun w => (tt, with_react (with_isSpeaking b) w).
Definition setIsProcessing (b : bool) : M unit :=
  fun w => (tt, with_react (with_isProcessing b) w).
Definition setTranscript (t : jsstring) : M unit :=
  fun w => (tt, with_react (with_transcript t) w).
Definition setAgentThinking (t : jsstring) : M unit :=
  fun w => (tt, with_react (with_agentThinking t) w).
Definition setCurrentTask (t : option TaskContext) : M unit :=
  fun w => (tt, with_react (with_currentTask t) w).

(** [setConversation(prev => [...prev, turn])]: applied to the live cell. *)
Definition appendConversation (turn : ConversationTurn) : M unit :=
  fun w => (tt, with_react (fun s => with_conversation (conversation s ++ [turn]) s) w).

(** [speechSynthesis.speak(utterance)]. *)
Definition synthSpeak (u : Utterance) : M unit :=
  emit (SynthSpeak u) ;; fun w => (tt, with_synth (Synth.speak u) w).

(* --------------------------------------------------------------------- *)
(** *** Utility functions *)
(* --------------------------------------------------------------------- *)

(** The character class [[\u3040-\u309F\u30A0-\u30FF\u4E00-\u9FAF]]. *)
Definition japaneseRegex (c : N) : bool :=
  (in_range 0x3040 0x309F c || in_range 0x30A0 0x30FF c
   || in_range 0x4E00 0x9FAF c)%bool.

Definition detectLanguage (text : jsstring) : Lang :=
  if existsb japaneseRegex text then ja else en.

Definition kw_keiyaku : jsstring := [0x5951; 0x7D04]%N.
Definition kw_touroku : jsstring := [0x767B; 0x9332]%N.
Definition kw_foroo : jsstring := [0x30D5; 0x30A9; 0x30ED; 0x30FC]%N.
Definition kw_meeru : jsstring := [0x30E1; 0x30FC; 0x30EB]%N.
Definition kw_rogu : jsstring := [0x30ED; 0x30B0]%N.
Definition kw_kiroku : jsstring := [0x8A18; 0x9332]%N.

Definition determineTaskType (input : jsstring) : option TaskType :=
  let lowerInput := toLowerCase input in
  if (includes lowerInput kw_keiyaku || includes lowerInput kw_touroku
      || includes lowerInput (lit "onboard")
      || includes lowerInput (lit "register"))%bool
  then Some onboarding
  else if (includes lowerInput kw_foroo || includes lowerInput (lit "follow")
           || includes lowerInput kw_meeru
           || includes lowerInput (lit "email"))%bool
  then Some followup
  else if (includes lowerInput kw_rogu || includes lowerInput kw_kiroku
           || includes lowerInput (lit "log")
           || includes lowerInput (lit "visit"))%bool
  then Some logging
  else None.

Definition getTaskSteps (taskType : TaskType) (lang : Lang) : list jsstring :=
  match taskType, lang with
  | onboarding, ja =>
      [ [0x9867; 0x5BA2; 0x60C5; 0x5831; 0x53CE; 0x96C6];
        [0x0049; 0x0044; 0x78BA; 0x8A8D];
        [0x30D7; 0x30E9; 0x30F3; 0x9078; 0x629E];
        [0x5951; 0x7D04; 0x66F8; 0x751F; 0x6210];
        [0x30E1; 0x30FC; 0x30EB; 0x9001; 0x4FE1] ]%N
  | onboarding, en =>
      [ lit "Customer Info Collection"; lit "ID Verification";
        lit "Plan Selection"; lit "Contract Generation"; lit "Email Sending" ]
  | followup, ja =>
      [ [0x9867; 0x5BA2; 0x72B6; 0x6CC1; 0x78BA; 0x8A8D];
        [0x30D5; 0x30A9; 0x30ED; 0x30FC; 0x30A2; 0x30C3; 0x30D7; 0x5185;
         0x5BB9; 0x4F5C; 0x6210];
        [0x30E1; 0x30FC; 0x30EB; 0x002F; 0x0053; 0x004D; 0x0053; 0x9001;
         0x4FE1];
        [0x7D50; 0x679C; 0x8A18; 0x9332] ]%N
  | followup, en =>
      [ lit "Customer Status Check"; lit "Follow-up Content Creation";
        lit "Email/SMS Sending"; lit "Result Recording" ]
  | logging, ja =>
      [ [0x8A2A; 0x554F; 0x60C5; 0x5831; 0x8A18; 0x9332];
        [0x4F5C; 0x696D; 0x5185; 0x5BB9; 0x5165; 0x529B];
        [0x30D5; 0x30A9; 0x30FC; 0x30E0; 0x9001; 0x4FE1];
        [0x5B8C; 0x4E86; 0x78BA; 0x8A8D] ]%N
  | logging, en =>
      [ lit "Visit Info Recording"; lit "Work Content Input";
        lit "Form Submission"; lit "Completion Confirmation" ]
  end.

(** A JavaScript number holding the integer [z], as a binary64 value (exact
    for the magnitudes a step index or a list length can take). *)
Definition number (z : Z) : float :=
  if (z <? 0)%Z then PrimFloat.opp (PrimFloat.of_uint63 (Uint63.of_Z (- z)))
  else PrimFloat.of_uint63 (Uint63.of_Z z).

(** [steps.length]. *)
Definition length_of (l : list jsstring) : Z := Z.of_nat (List.length l).

(* --------------------------------------------------------------------- *)
(** *** [speakResponse] *)
(* --------------------------------------------------------------------- *)

Definition voiceFor (lang : Lang) : jsstring :=
  match lang with ja => lit "nova" | en => lit "alloy" end.

(** With the Web Speech API the utterance is handed to
    [speechSynthesis.speak] and the function returns; nothing is cancelled
    first.  Without it the text goes to the remote speech service, whose
    failure is caught, logged, and clears [isSpeaking]. *)
Definition speakResponse (text : jsstring) (lang : Lang) (io : IO) : M unit :=
  if negb (truthy (trim text)) then ret tt
  else
    setIsSpeaking true ;;
    h <- getHost ;;
    if speechSynthesis_in_window h then
      synthSpeak {| utext := text; ulang := lang |}
    else
      emit (GenerateSpeech text (voiceFor lang)) ;;
      if speech_ok io then emit AudioPlay
      else
        emit (ConsoleError (lit "Error speaking response:")) ;;
        setIsSpeaking false.

(** [utterance.onend] and [utterance.onerror]. *)
Definition utterance_onend : M unit := setIsSpeaking false.

(** [audio.onended] and [audio.onerror]. *)
Definition audio_onended : M unit := setIsSpeaking false.

(* --------------------------------------------------------------------- *)
(** *** [updateTaskContext] *)
(* --------------------------------------------------------------------- *)

(** An awaited task-store call: issued, and on rejection the [catch] of
    [updateTaskContext] logs the error. *)
Definition taskStoreCall (e : Effect) (io : IO) : M unit :=
  emit e ;;
  when (negb (db_ok io))
       (emit (ConsoleError (lit "Error updating task context:"))).

(** [{ ...currentTask }] with the step advanced, the progress recomputed and
    the status set once the last index is reached. *)
Definition advanceTask (t : TaskContext) : TaskContext :=
  let step := Z.min (currentStep t + 1) (length_of (steps t) - 1) in
  {| task_id := task_id t;
     task_type := task_type t;
     status := if (length_of (steps t) - 1 <=? step)%Z then completed
               else status t;
     steps := steps t;
     currentStep := step;
     progress := PrimFloat.mul
                   (PrimFloat.div (number step) (number (length_of (steps t))))
                   (number 100) |}.

(** The task built when a trigger matches and no task is held. *)
Definition newTask (taskType : TaskType) (lang : Lang) (now : Z) : TaskContext :=
  {| task_id := now; task_type := taskType; status := active;
     steps := getTaskSteps taskType lang; currentStep := 0;
     progress := number 0 |}.

(** [currentTask] and [keigoMode] are the values of the render [env] that
    created the callback; [now] is the clock reading.  In the creation branch
    [blink.auth.me()] is awaited while the argument of [tasks.create] is
    built: if it rejects, [tasks.create] is not called and the [catch] logs
    the error; the task has been put in the cell before. *)
Definition updateTaskContext (env : State) (input response : jsstring)
    (lang : Lang) (now : Z) (io : IO) : M unit :=
  match determineTaskType input, currentTask env with
  | Some taskType, None =>
      let newTask := newTask taskType lang now in
      setCurrentTask (Some newTask) ;;
      emit AuthMe ;;
      if auth_ok io then
        taskStoreCall
          (DbCreate {| row_id := task_id newTask;
                       row_taskType := task_type newTask;
                       row_status := status newTask;
                       row_currentStep := currentStep newTask;
                       row_totalSteps := length_of (steps newTask);
                       row_progress := progress newTask;
                       row_language := lang;
                       row_keigoMode := keigoMode env;
                       row_createdAt := now |}) io
      else emit (ConsoleError (lit "Error updating task context:"))
  | _, Some t =>
      let updatedTask := advanceTask t in
      h <- getHost ;;
      when ((length_of (steps updatedTask) - 1 <=? currentStep updatedTask)%Z
            && onTaskComplete_given h)
           (emit (OnTaskComplete updatedTask)) ;;
      setCurrentTask (Some updatedTask) ;;
      taskStoreCall
        (DbUpdate (task_id updatedTask)
           {| patch_currentStep := currentStep updatedTask;
              patch_progress := progress updatedTask;
              patch_status := status updatedTask;
              patch_updatedAt := now |}) io
  | None, None => ret tt
  end.

(* --------------------------------------------------------------------- *)
(** *** [continueTaskFlow] *)
(* --------------------------------------------------------------------- *)

Definition nextStepPrompt (ty : TaskType) (lang : Lang) : jsstring :=
  match ty, lang with
  | onboarding, ja =>
      [0x6B21; 0x306E; 0x30B9; 0x30C6; 0x30C3; 0x30D7; 0x306B; 0x9032; 0x307F;
       0x307E; 0x3057; 0x3087; 0x3046; 0x3002; 0x4ED6; 0x306B; 0x5FC5; 0x8981;
       0x306A; 0x60C5; 0x5831; 0x306F; 0x3042; 0x308A; 0x307E; 0x3059; 0x304B;
       0xFF1F]%N
  | onboarding, en =>
      lit "Let's proceed to the next step. Is there any other information needed?"
  | followup, ja =>
      [0x30D5; 0x30A9; 0x30ED; 0x30FC; 0x30A2; 0x30C3; 0x30D7; 0x3092; 0x7D9A;
       0x3051; 0x307E; 0x3059; 0x3002; 0x4ED6; 0x306B; 0x3054; 0x8CEA; 0x554F;
       0x306F; 0x3042; 0x308A; 0x307E; 0x3059; 0x304B; 0xFF1F]%N
  | followup, en => lit "Continuing follow-up. Do you have any other questions?"
  | logging, ja =>
      [0x4F5C; 0x696D; 0x30ED; 0x30B0; 0x3092; 0x7D9A; 0x3051; 0x307E; 0x3059;
       0x3002; 0x4ED6; 0x306B; 0x8A18; 0x9332; 0x3059; 0x308B; 0x3053; 0x3068;
       0x306F; 0x3042; 0x308A; 0x307E; 0x3059; 0x304B; 0xFF1F]%N
  | logging, en => lit "Continuing work log. Anything else to record?"
  end.

Definition continueTaskFlow (env : State) (io : IO) : M unit :=
  match currentTask env with
  | None => ret tt
  | Some t =>
      if negb (Status_eqb (status t) active) then ret tt
      else speakResponse (nextStepPrompt (task_type t) (language env))
                         (language env) io
  end.

(* --------------------------------------------------------------------- *)
(** *** [handleUserInput] *)
(* --------------------------------------------------------------------- *)

Definition analyzingNotice : jsstring :=
  ([0x5206; 0x6790; 0x4E2D]%N ++ lit "... / Analyzing...").

Definition errorMessage (lang : Lang) : jsstring :=
  match lang with
  | ja =>
      [0x3059; 0x307F; 0x307E; 0x305B; 0x3093; 0x3001; 0x51E6; 0x7406; 0x4E2D;
       0x306B; 0x30A8; 0x30E9; 0x30FC; 0x304C; 0x767A; 0x751F; 0x3057; 0x307E;
       0x3057; 0x305F; 0x3002; 0x3082; 0x3046; 0x4E00; 0x5EA6; 0x304A; 0x8A66;
       0x3057; 0x304F; 0x3060; 0x3055; 0x3044; 0x3002]%N
  | en =>
      lit "Sorry, there was an error processing your request. Please try again."
  end.

Definition buildPrompt (env : State) (input : jsstring) (lang : Lang) : Prompt :=
  {| prompt_context :=
       map (fun turn => (turn_type turn, content turn)) (conversation env);
     prompt_task :=
       match currentTask env with
       | Some t => Some (task_type t, currentStep t, length_of (steps t))
       | None => None
       end;
     prompt_input := input;
     prompt_language := lang;
     prompt_keigo := keigoMode env |}.

(** A call of [handleUserInput] suspended at
    [await blink.ai.generateText(...)]: the render it closes over, its
    argument and the user turn it built. *)
Record Pending := {
  p_env : State;
  p_input : jsstring;
  p_userTurn : ConversationTurn
}.

Definition userTurnOf (input : jsstring) (now : Z) : ConversationTurn :=
  {| turn_id := now; turn_type := user; content := input;
     timestamp := now; turn_language := detectLanguage input;
     reasoning := None; confidence := None |}.

Definition agentTurnOf (aiResponse : jsstring) (lang : Lang) (now : Z)
  : ConversationTurn :=
  {| turn_id := now + 1; turn_type := agent; content := aiResponse;
     timestamp := now; turn_language := lang;
     reasoning := Some (lit "AI analysis and task progression");
     confidence := Some 0x1.ccccccccccccdp-1%float |}.

(** [handleUserInput] up to the inference call.  [None]: the guard returned
    at once; [Some p]: the call was issued and the function is suspended. *)
Definition handleUserInput (env : State) (input : jsstring) (now : Z)
  : M (option Pending) :=
  if (isProcessing env || isSpeaking env)%bool then ret None
  else
    setIsProcessing true ;;
    setTranscript [] ;;
    r <- getRefs ;;
    match processingTimeoutRef r with
    | Some t => emit (ClearTimeout t)
    | None => ret tt
    end ;;
    let userTurn := userTurnOf input now in
    appendConversation userTurn ;;
    setAgentThinking analyzingNotice ;;
    emit (GenerateText (buildPrompt env input (turn_language userTurn)) 300) ;;
    ret (Some {| p_env := env; p_input := input; p_userTurn := userTurn |}).

Definition setConversationTimeout (t : Timer) : M unit :=
  emit (SetTimeout t 3000) ;;
  fun w =>
    (tt, with_refs (fun r =>
           {| recognitionRef := recognitionRef r; streamRef := streamRef r;
              audioContextRef := audioContextRef r;
              processingTimeoutRef := processingTimeoutRef r;
              conversationTimeoutRef := Some t |}) w).

(** The rest of the [try] block once the inference call has resolved with
    [aiResponse], followed by [finally]. *)
Definition handleUserInput_resolved (p : Pending) (aiResponse : jsstring)
    (now : Z) (io : IO) : M unit :=
  let env := p_env p in
  let lang := turn_language (p_userTurn p) in
  setAgentThinking [] ;;
  let agentTurn := agentTurnOf aiResponse lang now in
  appendConversation agentTurn ;;
  updateTaskContext env (p_input p) aiResponse lang now io ;;
  speakResponse aiResponse lang io ;;
  match currentTask env with
  | Some t =>
      when (Status_eqb (status t) active)
           (setConversationTimeout (ConversationTimer env))
  | None => ret tt
  end ;;
  setIsProcessing false.

(** The [catch] block when the inference call rejects, followed by
    [finally]. *)
Definition handleUserInput_rejected (p : Pending) (io : IO) : M unit :=
  let lang := turn_language (p_userTurn p) in
  emit (ConsoleError (lit "Error processing input:")) ;;
  speakResponse (errorMessage lang) lang io ;;
  setIsProcessing false.

(** The callback of the 3000 ms timer set by [handleUserInput]. *)
Definition conversationTimeout_fired (env : State) (io : IO) : M unit :=
  if (isActive env && negb (isSpeaking env))%bool then continueTaskFlow env io
  else ret tt.

(* --------------------------------------------------------------------- *)
(** *** Audio capture and speech recognition *)
(* --------------------------------------------------------------------- *)

(** [getUserMedia] either yields a stream, which is wired to an analyser, or
    rejects, which is caught and logged.  The level-meter loop only writes
    [audioLevel]. *)
Definition initializeAudioVisualization (mic : MicOutcome) : M unit :=
  emit GetUserMedia ;;
  match mic with
  | MicGranted =>
      fun w =>
        (tt, with_refs (fun r =>
               {| recognitionRef := recognitionRef r; streamRef := true;
                  audioContextRef := true;
                  processingTimeoutRef := processingTimeoutRef r;
                  conversationTimeoutRef := conversationTimeoutRef r |}) w)
  | MicDenied => emit (ConsoleError (lit "Error accessing microphone:"))
  end.

(** Builds a recognition object and stores it in [recognitionRef]; its
    [onresult] handler is [recognition_onresult] below, with the
    [handleUserInput] of the render whose [initializeSpeechRecognition] is
    called.  The object is not started here. *)
Definition initializeSpeechRecognition : M unit :=
  h <- getHost ;;
  if negb (speechRecognition_in_window h) then
    emit (ConsoleWarn (lit "Speech recognition not supported"))
  else
    fun w =>
      (tt, with_refs (fun r =>
             {| recognitionRef := true; streamRef := streamRef r;
                audioContextRef := audioContextRef r;
                processingTimeoutRef := processingTimeoutRef r;
                conversationTimeoutRef := conversationTimeoutRef r |}) w).

(** The results of a [SpeechRecognitionEvent] from [resultIndex] on: the
    first alternative's transcript and [isFinal]. *)
Definition ResultList := list (jsstring * bool).

Definition finalTranscript (results : ResultList) : jsstring :=
  List.concat (map fst (filter (fun r => snd r) results)).

Definition interimTranscript (results : ResultList) : jsstring :=
  List.concat (map fst (filter (fun r => negb (snd r)) results)).

(** [interimTranscript || finalTranscript]. *)
Definition shownTranscript (results : ResultList) : jsstring :=
  if truthy (interimTranscript results) then interimTranscript results
  else finalTranscript results.

(** [recognition.onresult], with the [handleUserInput] of render [env]. *)
Definition recognition_onresult (env : State) (results : ResultList) (now : Z)
  : M (option Pending) :=
  let final := finalTranscript results in
  setTranscript (shownTranscript results) ;;
  if truthy (trim final) then handleUserInput env (trim final) now
  else ret None.

Definition recognition_onstart : M unit := setIsListening true.

(* --------------------------------------------------------------------- *)
(** *** [toggleAgent] *)
(* --------------------------------------------------------------------- *)

Definition welcomeMessage (lang : Lang) : jsstring :=
  match lang with
  | ja =>
      (lit "BRYTT AI" ++
       [0x30A8; 0x30FC; 0x30B8; 0x30A7; 0x30F3; 0x30C8; 0x304C; 0x8D77; 0x52D5;
        0x3057; 0x307E; 0x3057; 0x305F; 0x3002; 0x304A; 0x8A71; 0x3057; 0x304F;
        0x3060; 0x3055; 0x3044; 0x3002]%N)
  | en => lit "BRYTT AI Agent is now active. Please speak."
  end.

Definition toggleAgent (env : State) (mic : MicOutcome) : M unit :=
  if negb (isActive env) then
    setIsActive true ;;
    initializeAudioVisualization mic ;;
    initializeSpeechRecognition ;;
    emit (SetTimeout (WelcomeTimer (welcomeMessage (language env))
                                   (language env)) 1000)
  else
    setIsActive false ;;
    setIsListening false ;;
    setIsSpeaking false ;;
    setIsProcessing false ;;
    r <- getRefs ;;
    when (recognitionRef r) (emit RecognitionStop) ;;
    when (streamRef r) (emit StreamStop) ;;
    when (audioContextRef r) (emit AudioContextClose) ;;
    match processingTimeoutRef r with
    | Some t => emit (ClearTimeout t)
    | None => ret tt
    end ;;
    match conversationTimeoutRef r with
    | Some t => emit (ClearTimeout t)
    | None => ret tt
    end.

(** The callback of the 1000 ms timer set on start. *)
Definition welcomeTimeout_fired (message : jsstring) (lang : Lang) (io : IO)
  : M unit :=
  speakResponse message lang io.

(* --------------------------------------------------------------------- *)
(** *** The component as an event-driven machine *)
(* --------------------------------------------------------------------- *)

(** The component and the calls of [handleUserInput] that are suspended at
    the inference call. *)
Record Machine := { world : World; inflight : list Pending }.

(** What can happen to a mounted component.

    A recognition object keeps the handlers it was built with.  It is built
    by [toggleAgent], and again by the effect on [language],
    [initializeSpeechRecognition], [isActive] and [isSpeaking]: after a
    render that changed one of them, and only if that render is active and
    an object exists, the effect stops the object and, 500 ms later, builds
    a new one with the callbacks of that render, which it starts unless that
    render is speaking.  [recognition.onend] restarts the object it belongs
    to, if the render that built it was active and neither speaking nor
    processing.

    So a result event reaches the [handleUserInput] of the render at which
    its object was built.  [RecognitionResult] is an event of an object
    built at the render now shown; [RecognitionResultOf env] is an event of
    an object built at an earlier render, whose cells were [env]: an object
    that has not been rebuilt yet, or one that was stopped and still
    delivers what it had captured.

    [InferenceResolved i] and [InferenceRejected i] settle the [i]-th
    suspended call; the remote service gives no order among calls in
    flight. *)
Inductive Event :=
| Toggle (mic : MicOutcome)
| RecognitionResult (results : ResultList) (now : Z)
| RecognitionResultOf (env : State) (results : ResultList) (now : Z)
| InferenceResolved (i : nat) (aiResponse : jsstring) (now : Z) (io : IO)
| InferenceRejected (i : nat) (io : IO)
| UtteranceEnd
| AudioEnded
| TimerFired (t : Timer) (io : IO).

Fixpoint remove_nth {A} (i : nat) (l : list A) : list A :=
  match i, l with
  | _, [] => []
  | O, _ :: l' => l'
  | S i', a :: l' => a :: remove_nth i' l'
  end.

Definition lift (c : M unit) (m : Machine) : Machine :=
  {| world := exec c (world m); inflight := inflight m |}.

(** One event.  The button runs the [toggleAgent] of the latest render, so
    it gets the live cells as its [env]; a recognition object, a suspended
    call and a timer keep the [env] they were created with.  Clock readings
    taken within one event are taken equal. *)
Definition step (m : Machine) (ev : Event) : Machine :=
  let w := world m in
  match ev with
  | Toggle mic => lift (toggleAgent (react w) mic) m
  | RecognitionResult results now =>
      if recognitionRef (refs w) then
        let (r, w') := recognition_onresult (react w) results now w in
        {| world := w';
           inflight := inflight m ++
                       match r with Some p => [p] | None => [] end |}
      else m
  | RecognitionResultOf env results now =>
      if recognitionRef (refs w) then
        let (r, w') := recognition_onresult env results now w in
        {| world := w';
           inflight := inflight m ++
                       match r with Some p => [p] | None => [] end |}
      else m
  | InferenceResolved i aiResponse now io =>
      match nth_error (inflight m) i with
      | Some p =>
          {| world := exec (handleUserInput_resolved p aiResponse now io) w;
             inflight := remove_nth i (inflight m) |}
      | None => m
      end
  | InferenceRejected i io =>
      match nth_error (inflight m) i with
      | Some p =>
          {| world := exec (handleUserInput_rejected p io) w;
             inflight := remove_nth i (inflight m) |}
      | None => m
      end
  | UtteranceEnd =>
      match synth w with
      | [] => m
      | _ :: _ =>
          {| world := exec utterance_onend (with_synth Synth.finish w);
             inflight := inflight m |}
      end
  | AudioEnded => lift audio_onended m
  | TimerFired (WelcomeTimer message lang) io =>
      lift (welcomeTimeout_fired message lang io) m
  | TimerFired (ConversationTimer env) io =>
      lift (conversationTimeout_fired env io) m
  end.

Definition run (m : Machine) (evs : list Event) : Machine :=
  fold_left step evs m.

(** The initial values of the [useState] and [useRef] cells. *)
Definition initialState : State :=
  {| isActive := false; isListening := false; isSpeaking := false;
     isProcessing := false; keigoMode := true; language := ja;
     conversation := []; currentTask := None; transcript := [];
     agentThinking := [] |}.

Definition initialRefs : Refs :=
  {| recognitionRef := false; streamRef := false; audioContextRef := false;
     processingTimeoutRef := None; conversationTimeoutRef := None |}.

Definition mount (h : Host) : Machine :=
  {| world := {| host := h; react := initialState; refs := initialRefs;
                 synth := []; log := [] |};
     inflight := [] |}.

(* --------------------------------------------------------------------- *)
(** *** Observations *)
(* --------------------------------------------------------------------- *)

(** The orchestrator states of the specification, read off the cells: idle
    while the agent is off; otherwise dispatching while a turn is processed,
    speaking while a response is spoken, and listening when neither holds,
    which is when [handleUserInput] takes a transcript. *)
Inductive Phase := idle | listening | dispatching | speaking.

Definition phase (s : State) : Phase :=
  if negb (isActive s) then idle
  else if isProcessing s then dispatching
  else if isSpeaking s then speaking
  else listening.

Definition is_completion (e : Effect) : bool :=
  match e with OnTaskComplete _ => true | _ => false end.

Definition is_creation (e : Effect) : bool :=
  match e with DbCreate _ => true | _ => false end.

(** The inputs handed to the inference service, in call order. *)
Definition dispatched (l : list Effect) : list jsstring :=
  flat_map (fun e => match e with
                     | GenerateText p _ => [prompt_input p]
                     | _ => []
                     end) l.

Definition completions (l : list Effect) : nat :=
  List.length (filter is_completion l).

Definition creations (l : list Effect) : nat :=
  List.length (filter is_creation l).

End AutonomousVoiceAgent.

(* ===================================================================== *)
(** ** [VoiceInterface.tsx]: the synthesizer call *)
(* ===================================================================== *)

Module VoiceInterface.

(** The [isSpeaking] cell and the platform queue; [language] is a prop. *)
Record State := { isSpeaking : bool; synth : Synth.queue }.

(** [speakResponse]: cancels whatever is queued or spoken, then speaks. *)
Definition speakResponse (h : Host) (language : Lang) (text : jsstring)
    (s : State) : State :=
  if negb (speechSynthesis_in_window h) then s
  else
    let q := Synth.cancel (synth s) in
    {| isSpeaking := true;
       synth := Synth.speak {| utext := text; ulang := language |} q |}.

End VoiceInterface.

Import AutonomousVoiceAgent.

(* ===================================================================== *)
(** ** Runs *)
(* ===================================================================== *)

Open Scope Z_scope.

Definition is_recognition_result (ev : Event) : bool :=
  match ev with
  | RecognitionResult _ _ | RecognitionResultOf _ _ _ => true
  | _ => false
  end.

(** Ready for a transcript: a recognition object exists, no turn is being
    processed or spoken, no call is in flight. *)
Definition ready (m : Machine) : Prop :=
  recognitionRef (refs (world m)) = true
  /\ isProcessing (react (world m)) = false
  /\ isSpeaking (react (world m)) = false
  /\ inflight m = [].

(** The properties of the specification that the code is compared with. *)

(** A response that arrives changes neither the log nor the task. *)
Definition result_discarded (m : Machine) (ev : Event) : Prop :=
  conversation (react (world (step m ev))) = conversation (react (world m))
  /\ currentTask (react (world (step m ev))) = currentTask (react (world m)).

(** Every finalized transcript of the run has been handed to inference by
    the end of the run. *)
Definition no_transcript_lost (m : Machine) (evs : list Event) : Prop :=
  forall results now,
    In (RecognitionResult results now) evs ->
    truthy (trim (finalTranscript results)) = true ->
    In (trim (finalTranscript results)) (dispatched (log (world (run m evs)))).

(** The step index of the task held. *)
Definition stepIndex (m : Machine) : option Z :=
  option_map currentStep (currentTask (react (world m))).

(** No task is active. *)
Definition no_active_task (s : State) : Prop :=
  match currentTask s with
  | Some t => status t <> active
  | None => True
  end.

(* --------------------------------------------------------------------- *)
(** *** Concrete runs *)
(* --------------------------------------------------------------------- *)

Module Scenario.

Definition browser : Host :=
  {| speechSynthesis_in_window := true; speechRecognition_in_window := true;
     onTaskComplete_given := true |}.

Definition io_ok : IO :=
  {| auth_ok := true; db_ok := true; speech_ok := true |}.

(** A finalized transcript, delivered by a recognition object built at the
    render now shown. *)
Definition said (text : string) (now : Z) : Event :=
  RecognitionResult [(lit text, true)] now.

(** The same, delivered by a recognition object built at the render whose
    cells were [env]. *)
Definition said_to (env : State) (text : string) (now : Z) : Event :=
  RecognitionResultOf env [(lit text, true)] now.

Definition answered (text : string) (now : Z) : Event :=
  InferenceResolved 0 (lit text) now io_ok.

(** The response to the [i]-th call in flight. *)
Definition answered_at (i : nat) (text : string) (now : Z) : Event :=
  InferenceResolved i (lit text) now io_ok.

(** Switching the agent on with the microphone granted; the welcome
    message is spoken a second later and comes to its end. *)
Definition startup : list Event :=
  [Toggle MicGranted;
   TimerFired (WelcomeTimer (welcomeMessage ja) ja) io_ok;
   UtteranceEnd].

Definition started : Machine := run (mount browser) startup.

(** A whole turn: transcript, response two seconds later, end of the spoken
    response. *)
Definition turn (text : string) (now : Z) : list Event :=
  [said text now; answered "OK" (now + 2000); UtteranceEnd].

(** Registration requested, the call still in flight. *)
Definition registering : Machine :=
  step started (said "register new customer Tanaka" 10000).

(** ... and [stop()] pressed before the response. *)
Definition stopped_mid_turn : Machine := step registering (Toggle MicGranted).

(** A second transcript one second into the resolution of the first, then
    the response and the end of its utterance. *)
Definition overlapping : list Event :=
  [said "register new customer Tanaka" 10000; said "send the email" 11000;
   answered "OK" 12000; UtteranceEnd].

(** The task is created, the answer to the next transcript is being spoken,
    and the three-second timer set for that turn fires. *)
Definition prompted : Machine :=
  let m := run started (turn "register new customer Tanaka" 10000
                        ++ [said "yes" 20000; answered "OK" 22000]) in
  match conversationTimeoutRef (refs (world m)) with
  | Some t => step m (TimerFired t io_ok)
  | None => m
  end.

(** The onboarding task created and advanced to its last step. *)
Definition onboarded : Machine :=
  run started (turn "register new customer Tanaka" 10000 ++ turn "yes" 20000
               ++ turn "yes" 30000 ++ turn "yes" 40000 ++ turn "yes" 50000).

(** Two registration requests finalized 400 ms apart.  The second one comes
    before the effect's 500 ms timer has rebuilt the recognition object, so
    it reaches the handlers of the render before the first dispatch.  Then
    the two responses arrive, in the order of the requests. *)
Definition double_registration : list Event :=
  [said "register new customer Tanaka" 10000;
   said_to (react (world started)) "register new customer Sato" 10400;
   answered "OK" 12000; answered "OK" 12400].

(** The onboarding task created, at step 0. *)
Definition registered : Machine :=
  run started (turn "register new customer Tanaka" 10000).

(** Two confirmations finalized 400 ms apart, the second one reaching the
    recognition object before it is rebuilt; the two responses arrive in the
    order of the requests. *)
Definition double_confirmation : list Event :=
  [said "yes" 20000; said_to (react (world registered)) "yes please" 20400;
   answered "OK" 22000; answered "OK" 22400].

(** The same two confirmations, but the response to the first one is slow.
    The second is answered and spoken, and three seconds later the timer of
    its turn has the next-step prompt spoken. *)
Definition slow_start : Machine :=
  run registered
    [said "yes" 20000; said_to (react (world registered)) "yes please" 20400;
     answered_at 1 "OK" 22000; UtteranceEnd;
     TimerFired (ConversationTimer (react (world registered))) io_ok;
     UtteranceEnd].

(** A third confirmation, heard by the rebuilt recognition object, answered
    and spoken and followed by its prompt; the first call is still in
    flight. *)
Definition slow_middle : Machine :=
  run slow_start
    [said "yes" 40000; answered_at 1 "OK" 42000; UtteranceEnd;
     TimerFired (ConversationTimer (react (world slow_start))) io_ok;
     UtteranceEnd].

(** The response to the first confirmation arrives. *)
Definition slow_end : Machine := step slow_middle (answered_at 0 "OK" 60000).

End Scenario.

(* ===================================================================== *)
(** ** Further observations on the autonomous agent *)
(* ===================================================================== *)

(** [kw] occurs in [s] as a run of consecutive code units. *)
Definition occurs (kw s : jsstring) : Prop := exists a b, s = a ++ kw ++ b.

(** The trigger lexicons of [determineTaskType], in the order tested. *)
Definition onboarding_keywords : list jsstring :=
  [kw_keiyaku; kw_touroku; lit "onboard"; lit "register"].

Definition followup_keywords : list jsstring :=
  [kw_foroo; lit "follow"; kw_meeru; lit "email"].

Definition logging_keywords : list jsstring :=
  [kw_rogu; kw_kiroku; lit "log"; lit "visit"].

(** The lower-cased input contains a keyword of the lexicon. *)
Definition mentions (lexicon : list jsstring) (input : jsstring) : Prop :=
  exists kw, In kw lexicon /\ occurs kw (toLowerCase input).

(** The task after [k] further completed turns. *)
Definition advanced (k : nat) (t : TaskContext) : TaskContext :=
  Nat.iter k advanceTask t.

Definition is_user (t : ConversationTurn) : bool :=
  match turn_type t with user => true | agent => false end.

Definition is_agent (t : ConversationTurn) : bool :=
  match turn_type t with agent => true | user => false end.

Definition user_turns (c : list ConversationTurn) : nat :=
  List.length (filter is_user c).

Definition agent_turns (c : list ConversationTurn) : nat :=
  List.length (filter is_agent c).

(* ===================================================================== *)
(** ** [VoiceInterface.tsx]: the rest of the panel *)
(* ===================================================================== *)

Module VoicePanel.

Inductive KeigoMode := formal | casual.

(** The props read by the callbacks. *)
Record Props := { language : Lang; keigoMode : KeigoMode }.

(** The [useState] cells ([audioLevel] left out), with [isSpeaking] and the
    platform queue kept together as for [speakResponse], and the two refs
    that the recording functions test. *)
Record Panel := {
  isRecording : bool;
  transcript : jsstring;
  isProcessing : bool;
  response : jsstring;
  textInput : jsstring;
  speech : VoiceInterface.State;
  recognitionRef : bool;
  mediaRecorderRef : bool
}.

(** Argument of [blink.db.tasks.create]. *)
Record TaskRow := {
  row_id : Z;                        (* task_${Date.now()} *)
  row_agentType : jsstring;
  row_taskName : jsstring;
  row_status : jsstring;
  row_lastAction : jsstring;
  row_command : jsstring;            (* inputData *)
  row_language : Lang;
  row_keigoMode : KeigoMode
}.

(** Calls that leave the panel. *)
Inductive Call :=
| AuthMe
| TasksCreate (row : TaskRow)
| GenerateText (command : jsstring) (language : Lang) (keigo : KeigoMode)
               (maxTokens : Z)
| TasksUpdate (id : Z) (status lastAction response : jsstring)
| OnTaskCreated
| OnActiveChange (active : bool)
| ConsoleError (message : jsstring)
| SpeakAfter (ms : Z) (text : jsstring)
| TranscribeAudio (language : Lang)
| RecognitionStart
| RecognitionStop
| GetUserMedia
| RecorderStart
| RecorderStop.

(** How the awaited remote calls of one command turn out. *)
Record Remote := {
  auth_ok : bool;
  create_ok : bool;
  generated : option jsstring;       (* [None]: the inference call rejects *)
  update_ok : bool
}.

Definition with_isRecording (b : bool) (p : Panel) : Panel :=
  {| isRecording := b; transcript := transcript p;
     isProcessing := isProcessing p; response := response p;
     textInput := textInput p; speech := speech p;
     recognitionRef := recognitionRef p;
     mediaRecorderRef := mediaRecorderRef p |}.

Definition with_transcript (t : jsstring) (p : Panel) : Panel :=
  {| isRecording := isRecording p; transcript := t;
     isProcessing := isProcessing p; response := response p;
     textInput := textInput p; speech := speech p;
     recognitionRef := recognitionRef p;
     mediaRecorderRef := mediaRecorderRef p |}.

Definition with_isProcessing (b : bool) (p : Panel) : Panel :=
  {| isRecording := isRecording p; transcript := transcript p;
     isProcessing := b; response := response p;
     textInput := textInput p; speech := speech p;
     recognitionRef := recognitionRef p;
     mediaRecorderRef := mediaRecorderRef p |}.

Definition with_response (r : jsstring) (p : Panel) : Panel :=
  {| isRecording := isRecording p; transcript := transcript p;
     isProcessing := isProcessing p; response := r;
     textInput := textInput p; speech := speech p;
     recognitionRef := recognitionRef p;
     mediaRecorderRef := mediaRecorderRef p |}.

Definition with_textInput (t : jsstring) (p : Panel) : Panel :=
  {| isRecording := isRecording p; transcript := transcript p;
     isProcessing := isProcessing p; response := response p;
     textInput := t; speech := speech p;
     recognitionRef := recognitionRef p;
     mediaRecorderRef := mediaRecorderRef p |}.

Definition with_speech (f : VoiceInterface.State -> VoiceInterface.State)
    (p : Panel) : Panel :=
  {| isRecording := isRecording p; transcript := transcript p;
     isProcessing := isProcessing p; response := response p;
     textInput := textInput p; speech := f (speech p);
     recognitionRef := recognitionRef p;
     mediaRecorderRef := mediaRecorderRef p |}.

Definition with_mediaRecorderRef (b : bool) (p : Panel) : Panel :=
  {| isRecording := isRecording p; transcript := transcript p;
     isProcessing := isProcessing p; response := response p;
     textInput := textInput p; speech := speech p;
     recognitionRef := recognitionRef p;
     mediaRecorderRef := b |}.

(** A computation over the panel and the calls made so far that either
    completes ([Some]) or throws ([None]). *)
Definition Run (A : Type) : Type :=
  Panel * list Call -> option A * (Panel * list Call).

Definition done {A} (a : A) : Run A := fun s => (Some a, s).

Definition andThen {A B} (m : Run A) (k : A -> Run B) : Run B :=
  fun s => match m s with
           | (Some a, s') => k a s'
           | (None, s') => (None, s')
           end.

Notation "m ~> k" := (andThen m (fun _ => k))
  (at level 62, right associativity).

(** [set f]: a state setter; [call e ok]: an awaited call that resolves or
    rejects; [tell e]: a call that cannot fail. *)
Definition set (f : Panel -> Panel) : Run unit :=
  fun s => (Some tt, (f (fst s), snd s)).

Definition call (e : Call) (ok : bool) : Run unit :=
  fun s => (if ok then Some tt else None, (fst s, snd s ++ [e])).

Definition tell (e : Call) : Run unit := call e true.

Definition whenever (b : bool) (m : Run unit) : Run unit :=
  if b then m else done tt.

(** [try body catch handler finally final]. *)
Definition tryCatchFinally (body handler final : Run unit) : Run unit :=
  fun s => match body s with
           | (Some _, s') => final s'
           | (None, s') => (handler ~> final) s'
           end.

Definition finish (m : Run unit) (p : Panel) : Panel * list Call :=
  snd (m (p, [])).

(** [stopSpeaking]. *)
Definition stopSpeaking (h : Host) (s : VoiceInterface.State)
  : VoiceInterface.State :=
  if speechSynthesis_in_window h then
    {| VoiceInterface.isSpeaking := false;
       VoiceInterface.synth := Synth.cancel (VoiceInterface.synth s) |}
  else s.

Definition errorMsg (l : Lang) : jsstring :=
  match l with
  | ja =>
      [0x30A8; 0x30E9; 0x30FC; 0x304C; 0x767A; 0x751F; 0x3057; 0x307E; 0x3057;
       0x305F; 0x3002; 0x3082; 0x3046; 0x4E00; 0x5EA6; 0x304A; 0x8A66; 0x3057;
       0x304F; 0x3060; 0x3055; 0x3044; 0x3002]%N
  | en => lit "An error occurred. Please try again."
  end.

Definition transcriptionErrorMsg (l : Lang) : jsstring :=
  match l with
  | ja =>
      [0x97F3; 0x58F0; 0x8A8D; 0x8B58; 0x30A8; 0x30E9; 0x30FC; 0x304C; 0x767A;
       0x751F; 0x3057; 0x307E; 0x3057; 0x305F; 0x3002; 0x3082; 0x3046; 0x4E00;
       0x5EA6; 0x304A; 0x8A66; 0x3057; 0x304F; 0x3060; 0x3055; 0x3044; 0x3002]%N
  | en => lit "Speech recognition error occurred. Please try again."
  end.

(** [command.substring(0, 100)]. *)
Definition taskNameOf (command : jsstring) : jsstring := firstn 100 command.

(** [processCommand]; [now] is the clock reading that names the task. *)
Definition processCommand (h : Host) (props : Props) (command : jsstring)
    (now : Z) (r : Remote) : Run unit :=
  if negb (truthy (trim command)) then done tt
  else
    set (with_isProcessing true) ~>
    set (with_response []) ~>
    tryCatchFinally
      (call AuthMe (auth_ok r) ~>
       call (TasksCreate
               {| row_id := now; row_agentType := lit "voice_command";
                  row_taskName := taskNameOf command;
                  row_status := lit "processing";
                  row_lastAction := lit "Voice command received";
                  row_command := command;
                  row_language := language props;
                  row_keigoMode := keigoMode props |}) (create_ok r) ~>
       call (GenerateText command (language props) (keigoMode props) 150)
            (match generated r with Some _ => true | None => false end) ~>
       match generated r with
       | None => done tt
       | Some text =>
           set (with_response text) ~>
           call (TasksUpdate now (lit "completed")
                   (lit "AI response generated") text) (update_ok r) ~>
           tell OnTaskCreated ~>
           whenever (speechSynthesis_in_window h && truthy text)
                    (tell (SpeakAfter 300 text))
       end)
      (tell (ConsoleError (lit "Error processing command:")) ~>
       set (with_response (errorMsg (language props))) ~>
       whenever (speechSynthesis_in_window h)
                (tell (SpeakAfter 300 (errorMsg (language props)))))
      (set (with_isProcessing false)).

(** [handleSubmit]: the command is the transcript, or else the typed
    text. *)
Definition handleSubmit (h : Host) (props : Props) (now : Z) (r : Remote)
  : Run unit :=
  fun s =>
    let command := if truthy (transcript (fst s)) then transcript (fst s)
                   else textInput (fst s) in
    if truthy (trim command) then
      (processCommand h props command now r ~>
       set (with_transcript []) ~>
       set (with_textInput [])) s
    else done tt s.

(** [recognition.onresult] of the panel. *)
Definition recognition_onresult (h : Host) (props : Props)
    (results : ResultList) (now : Z) (r : Remote) : Run unit :=
  let final := finalTranscript results in
  set (with_transcript (final ++ interimTranscript results)) ~>
  whenever (truthy (trim final)) (processCommand h props final now r).

(** [transcribeAudio]: the transcription rejects ([None]) or yields a
    text. *)
Definition transcribeAudio (h : Host) (props : Props)
    (transcribed : option jsstring) (now : Z) (r : Remote) : Run unit :=
  tryCatchFinally
    (set (with_isProcessing true) ~>
     call (TranscribeAudio (language props))
          (match transcribed with Some _ => true | None => false end) ~>
     match transcribed with
     | None => done tt
     | Some text =>
         set (with_transcript text) ~>
         whenever (truthy (trim text)) (processCommand h props text now r)
     end)
    (tell (ConsoleError (lit "Transcription error:")) ~>
     set (with_response (transcriptionErrorMsg (language props))) ~>
     set (with_speech
            (VoiceInterface.speakResponse h (language props)
               (transcriptionErrorMsg (language props)))))
    (set (with_isProcessing false)).

(** [startRecording]: with a recognition object, recognition is started;
    without one the microphone is requested for the recorder, and a
    rejection is caught and logged. *)
Definition startRecording (mic : MicOutcome) : Run unit :=
  fun s =>
    tryCatchFinally
      (if recognitionRef (fst s) then
         set (with_transcript []) ~>
         set (with_isRecording true) ~>
         tell (OnActiveChange true) ~>
         tell RecognitionStart
       else
         call GetUserMedia
              (match mic with MicGranted => true | MicDenied => false end) ~>
         set (with_mediaRecorderRef true) ~>
         set (with_isRecording true) ~>
         tell (OnActiveChange true) ~>
         tell RecorderStart)
      (tell (ConsoleError (lit "Error starting recording:")))
      (done tt) s.

(** [stopRecording]. *)
Definition stopRecording : Run unit :=
  fun s =>
    ((if (recognitionRef (fst s) && isRecording (fst s))%bool
      then tell RecognitionStop
      else whenever (mediaRecorderRef (fst s) && isRecording (fst s))
                    (tell RecorderStop)) ~>
     set (with_isRecording false) ~>
     tell (OnActiveChange false)) s.

(** The panel after mounting: the initial cell values, and a recognition
    object if the browser has one. *)
Definition mounted (h : Host) : Panel :=
  {| isRecording := false; transcript := []; isProcessing := false;
     response := []; textInput := [];
     speech := {| VoiceInterface.isSpeaking := false;
                  VoiceInterface.synth := [] |};
     recognitionRef := speechRecognition_in_window h;
     mediaRecorderRef := false |}.

(** What the user does to the synthesizer through the panel. *)
Inductive SpeechOp := Speak (text : jsstring) | StopSpeaking.

Definition speechOp (h : Host) (props : Props) (op : SpeechOp)
    (s : VoiceInterface.State) : VoiceInterface.State :=
  match op with
  | Speak text => VoiceInterface.speakResponse h (language props) text s
  | StopSpeaking => stopSpeaking h s
  end.

End VoicePanel.

(** A browser with speech synthesis and without speech recognition. *)
Definition plain_browser : Host :=
  {| speechSynthesis_in_window := true; speechRecognition_in_window := false;
     onTaskComplete_given := false |}.

(* ===================================================================== *)
(** ** The dashboard and the task log ([Dashboard], [TaskLogs]) *)
(* ===================================================================== *)

Module Tasks.

(** [a === b] on strings. *)
Fixpoint str_eqb (a b : jsstring) : bool :=
  match a, b with
  | [], [] => true
  | x :: a', y :: b' => (N.eqb x y && str_eqb a' b')%bool
  | _, _ => false
  end.

(** A number holding an integer, rendered by a template literal. *)
Definition decimal (z : Z) : jsstring :=
  lit (DecimalString.NilZero.string_of_int (Z.to_int z)).

(** [interface Task], the fields the functions below read. *)
Record Task := {
  id : jsstring;
  agentType : jsstring;
  taskName : jsstring;
  status : jsstring;
  lastAction : jsstring
}.

(** [Dashboard.getStatusCounts]. *)
Record StatusCounts := { pending : nat; processing : nat; completed : nat }.

Definition has_status (s : string) (task : Task) : bool :=
  str_eqb (status task) (lit s).

Definition getStatusCounts (tasks : list Task) : StatusCounts :=
  {| pending := List.length (filter (has_status "pending") tasks);
     processing := List.length (filter (has_status "processing") tasks);
     completed := List.length (filter (has_status "completed") tasks) |}.

(** [TaskLogs.filteredTasks], for the cells [filter] and [searchTerm]. *)
Definition filteredTasks (filter_ searchTerm : jsstring) (tasks : list Task)
  : list Task :=
  filter (fun task =>
            let matchesFilter :=
              (str_eqb filter_ (lit "all") || str_eqb (status task) filter_)%bool in
            let matchesSearch :=
              (includes (toLowerCase (taskName task)) (toLowerCase searchTerm)
               || includes (toLowerCase (lastAction task))
                           (toLowerCase searchTerm))%bool in
            (matchesFilter && matchesSearch)%bool)
         tasks.

(** [TaskLogs.getTimeAgo]; [now] and [date] are the [getTime()] readings,
    in milliseconds, of the clock and of the parsed date string (a string
    that does not parse is not covered). *)
Definition getTimeAgo (language : Lang) (now date : Z) : jsstring :=
  let diffMs := now - date in
  let diffMins := diffMs / 60000 in
  let diffHours := diffMins / 60 in
  let diffDays := diffHours / 24 in
  match language with
  | ja =>
      if diffMins <? 1 then [0x305F; 0x3063; 0x305F; 0x4ECA]%N
      else if diffMins <? 60 then decimal diffMins ++ [0x5206; 0x524D]%N
      else if diffHours <? 24
           then decimal diffHours ++ [0x6642; 0x9593; 0x524D]%N
      else decimal diffDays ++ [0x65E5; 0x524D]%N
  | en =>
      if diffMins <? 1 then lit "Just now"
      else if diffMins <? 60 then decimal diffMins ++ lit "m ago"
      else if diffHours <? 24 then decimal diffHours ++ lit "h ago"
      else decimal diffDays ++ lit "d ago"
  end.

(** The words of [getTimeAgo]. *)
Definition justNow (l : Lang) : jsstring :=
  match l with ja => [0x305F; 0x3063; 0x305F; 0x4ECA]%N | en => lit "Just now" end.

Definition unitAgo (l : Lang) (unit : Z) : jsstring :=
  match l with
  | ja => if unit =? 60000 then [0x5206; 0x524D]%N
          else if unit =? 3600000 then [0x6642; 0x9593; 0x524D]%N
          else [0x65E5; 0x524D]%N
  | en => if unit =? 60000 then lit "m ago"
          else if unit =? 3600000 then lit "h ago"
          else lit "d ago"
  end.

End Tasks.

(* ===================================================================== *)
(** ** [AgentCards.tsx]: running an agent *)
(* ===================================================================== *)

Module AgentCards.

(** The cells: the agent shown as running, and the progress per agent id
    (an object used as a map; a missing key reads as [undefined]). *)
Record Cards := {
  activeAgent : option jsstring;
  agentProgress : jsstring -> option Z
}.

(** [task_${agentId}_${Date.now()}]. *)
Definition TaskId : Type := jsstring * Z.

(** What happens, in program order: the remote calls, the waits, and the
    progress values put on screen. *)
Inductive Step :=
| AuthMe
| TasksCreate (id : TaskId) (agentType taskName status lastAction : jsstring)
| TasksUpdate (id : TaskId) (status : option jsstring) (lastAction : jsstring)
| OnTaskCreated
| ConsoleError (message : jsstring)
| Progress (agentId : jsstring) (value : Z)
| Sleep (ms : Z).

(** How the awaited remote calls turn out. *)
Record Remote := {
  auth_ok : bool;
  create_ok : bool;
  note_ok : bool;                    (* the update at 50 *)
  complete_ok : bool
}.

(** [agents.find(a => a.id === agentId)?.name], as a template literal
    renders it. *)
Definition agentName (language : Lang) (agentId : jsstring) : jsstring :=
  if Tasks.str_eqb agentId (lit "onboard") then
    match language with
    | ja => [0x30AA; 0x30F3; 0x30DC; 0x30FC; 0x30C9; 0x30DC; 0x30C3; 0x30C8]%N
    | en => lit "OnboardBot"
    end
  else if Tasks.str_eqb agentId (lit "followup") then
    match language with
    | ja => [0x30D5; 0x30A9; 0x30ED; 0x30FC; 0x30A2; 0x30C3; 0x30D7; 0x30A8;
             0x30FC; 0x30B8; 0x30A7; 0x30F3; 0x30C8]%N
    | en => lit "FollowUpAgent"
    end
  else if Tasks.str_eqb agentId (lit "ops") then
    match language with
    | ja => [0x30AA; 0x30DA; 0x30EC; 0x30FC; 0x30B7; 0x30E7; 0x30F3; 0x30ED;
             0x30AC; 0x30FC]%N
    | en => lit "OpsLogger"
    end
  else lit "undefined".

Definition Run (A : Type) : Type :=
  Cards * list Step -> option A * (Cards * list Step).

Definition done {A} (a : A) : Run A := fun s => (Some a, s).

Definition andThen {A B} (m : Run A) (k : A -> Run B) : Run B :=
  fun s => match m s with
           | (Some a, s') => k a s'
           | (None, s') => (None, s')
           end.

Notation "m ~> k" := (andThen m (fun _ => k))
  (at level 62, right associativity).

Definition call (e : Step) (ok : bool) : Run unit :=
  fun s => (if ok then Some tt else None, (fst s, snd s ++ [e])).

Definition tell (e : Step) : Run unit := call e true.

Definition setActiveAgent (a : option jsstring) : Run unit :=
  fun s => (Some tt, ({| activeAgent := a;
                         agentProgress := agentProgress (fst s) |}, snd s)).

(** [setAgentProgress(prev => ({ ...prev, [agentId]: value }))]. *)
Definition setAgentProgress (agentId : jsstring) (value : Z) : Run unit :=
  fun s =>
    (Some tt,
     ({| activeAgent := activeAgent (fst s);
         agentProgress := fun k => if Tasks.str_eqb k agentId then Some value
                                   else agentProgress (fst s) k |},
      snd s ++ [Progress agentId value])).

Definition tryCatchFinally (body handler final : Run unit) : Run unit :=
  fun s => match body s with
           | (Some _, s') => final s'
           | (None, s') => (handler ~> final) s'
           end.

Definition finish (m : Run unit) (c : Cards) : Cards * list Step :=
  snd (m (c, [])).

(** The values of [i] in [for (let i = 0; i <= 100; i += 10)]. *)
Definition loopValues : list Z := map (fun k => 10 * Z.of_nat k) (seq 0 11).

Fixpoint progressLoop (agentId name : jsstring) (id : TaskId) (note_ok : bool)
    (values : list Z) : Run unit :=
  match values with
  | [] => done tt
  | i :: rest =>
      setAgentProgress agentId i ~>
      tell (Sleep 200) ~>
      (if i =? 50
       then call (TasksUpdate id None (name ++ lit " processing...")) note_ok
       else done tt) ~>
      progressLoop agentId name id note_ok rest
  end.

Definition executeAgent (language : Lang) (agentId : jsstring) (now : Z)
    (r : Remote) : Run unit :=
  let name := agentName language agentId in
  let id := (agentId, now) in
  setActiveAgent (Some agentId) ~>
  setAgentProgress agentId 0 ~>
  tryCatchFinally
    (call AuthMe (auth_ok r) ~>
     call (TasksCreate id agentId (name ++ lit " Execution")
             (lit "processing") (lit "Agent started")) (create_ok r) ~>
     progressLoop agentId name id (note_ok r) loopValues ~>
     call (TasksUpdate id (Some (lit "completed"))
             (name ++ lit " completed successfully")) (complete_ok r) ~>
     tell OnTaskCreated)
    (tell (ConsoleError (lit "Agent execution error:")))
    (setActiveAgent None ~> setAgentProgress agentId 0).

(** The progress values put on screen, in order. *)
Definition shown (trace : list Step) : list Z :=
  flat_map (fun e => match e with Progress _ v => [v] | _ => [] end) trace.

End AgentCards.


(** The step index is not beyond the last step of the list. *)
Definition within_steps (t : option TaskContext) : Prop :=
  match t with
  | Some t => currentStep t <= length_of (steps t) - 1
  | None => True
  end.
(* ===================================================================== *)
(** * Properties *)
(* ===================================================================== *)

(* ===================================================================== *)
(** ** Basic facts *)
(* ===================================================================== *)

Lemma japaneseRegex_spec (c : N) :
  japaneseRegex c = true <->
  (0x3040 <= c <= 0x309F \/ 0x30A0 <= c <= 0x30FF \/ 0x4E00 <= c <= 0x9FAF)%N.
Proof.
  unfold japaneseRegex, in_range.
  rewrite !orb_true_iff, !andb_true_iff, !N.leb_le. tauto.
Qed.

Lemma creations_snoc (l : list Effect) (e : Effect) :
  creations (l ++ [e]) = (creations l + if is_creation e then 1 else 0)%nat.
Proof.
  unfold creations. rewrite filter_app, length_app. cbn.
  now destruct (is_creation e).
Qed.

Lemma completions_snoc (l : list Effect) (e : Effect) :
  completions (l ++ [e]) =
  (completions l + if is_completion e then 1 else 0)%nat.
Proof.
  unfold completions. rewrite filter_app, length_app. cbn.
  now destruct (is_completion e).
Qed.

Lemma dispatched_snoc (l : list Effect) (e : Effect) :
  dispatched (l ++ [e]) =
  dispatched l ++ match e with GenerateText p _ => [prompt_input p] | _ => [] end.
Proof.
  unfold dispatched. rewrite flat_map_app. cbn. now rewrite app_nil_r.
Qed.

Arguments creations : simpl never.
Arguments completions : simpl never.
Arguments dispatched : simpl never.

(** Unfolds a handler applied to a symbolic world and splits on every test
    it makes. *)
Ltac split_tests :=
  repeat (cbn in *;
          match goal with
          | |- context [if ?b then _ else _] => destruct b eqn:?
          | |- context [match ?x with Some _ => _ | None => _ end] =>
              destruct x eqn:?
          end).

Ltac count_effects :=
  cbn;
  rewrite ?creations_snoc, ?completions_snoc, ?dispatched_snoc; cbn;
  rewrite ?Nat.add_0_r, ?app_nil_r.

(** What [speakResponse] leaves alone. *)
Lemma speakResponse_frame (text : jsstring) (lang : Lang) (io : IO) (w : World) :
  let w' := exec (speakResponse text lang io) w in
  host w' = host w /\ refs w' = refs w
  /\ isActive (react w') = isActive (react w)
  /\ isProcessing (react w') = isProcessing (react w)
  /\ conversation (react w') = conversation (react w)
  /\ currentTask (react w') = currentTask (react w)
  /\ creations (log w') = creations (log w)
  /\ completions (log w') = completions (log w)
  /\ dispatched (log w') = dispatched (log w).
Proof.
  unfold speakResponse, exec, synthSpeak, bind, getHost.
  split_tests; count_effects; repeat split; reflexivity.
Qed.

(** The task [updateTaskContext] leaves in the cell, given the task [held]
    by the render it closes over and the task [live] in the cell. *)
Lemma updateTaskContext_effect (env : State) (input response : jsstring)
    (lang : Lang) (now : Z) (io : IO) (w : World) :
  let w' := exec (updateTaskContext env input response lang now io) w in
  host w' = host w /\ refs w' = refs w /\ synth w' = synth w
  /\ isActive (react w') = isActive (react w)
  /\ isProcessing (react w') = isProcessing (react w)
  /\ isSpeaking (react w') = isSpeaking (react w)
  /\ conversation (react w') = conversation (react w)
  /\ dispatched (log w') = dispatched (log w)
  /\ currentTask (react w') =
     match determineTaskType input, currentTask env with
     | Some ty, None => Some (newTask ty lang now)
     | _, Some t => Some (advanceTask t)
     | None, None => currentTask (react w)
     end
  /\ creations (log w') =
     (creations (log w) +
      match determineTaskType input, currentTask env with
      | Some _, None => if auth_ok io then 1 else 0
      | _, _ => 0
      end)%nat
  /\ completions (log w') =
     (completions (log w) +
      match currentTask env with
      | Some t =>
          if (length_of (steps t) - 1 <=? currentStep (advanceTask t))%Z
             && onTaskComplete_given (host w)
          then 1 else 0
      | None => 0
      end)%nat.
Proof.
  unfold updateTaskContext, taskStoreCall, when, exec, bind, getHost.
  destruct (determineTaskType input), (currentTask env);
    split_tests; count_effects; repeat split; reflexivity.
Qed.

Lemma handleUserInput_busy (env : State) (input : jsstring) (now : Z) (w : World) :
  (isProcessing env || isSpeaking env)%bool = true ->
  handleUserInput env input now w = (None, w).
Proof. unfold handleUserInput. now intros ->. Qed.

Lemma handleUserInput_free (env : State) (input : jsstring) (now : Z) (w : World) :
  (isProcessing env || isSpeaking env)%bool = false ->
  let w' := snd (handleUserInput env input now w) in
  fst (handleUserInput env input now w) =
    Some {| p_env := env; p_input := input; p_userTurn := userTurnOf input now |}
  /\ host w' = host w /\ refs w' = refs w /\ synth w' = synth w
  /\ isActive (react w') = isActive (react w)
  /\ isProcessing (react w') = true
  /\ isSpeaking (react w') = isSpeaking (react w)
  /\ conversation (react w') = conversation (react w) ++ [userTurnOf input now]
  /\ currentTask (react w') = currentTask (react w)
  /\ dispatched (log w') = dispatched (log w) ++ [input]
  /\ creations (log w') = creations (log w)
  /\ completions (log w') = completions (log w)
  /\ isListening (react w') = isListening (react w).
Proof.
  unfold handleUserInput, bind, getRefs. intros ->.
  split_tests; count_effects; repeat split; reflexivity.
Qed.

Lemma handleUserInput_resolved_effect (p : Pending) (aiResponse : jsstring)
    (now : Z) (io : IO) (w : World) :
  let w' := exec (handleUserInput_resolved p aiResponse now io) w in
  let lang := turn_language (p_userTurn p) in
  host w' = host w
  /\ isActive (react w') = isActive (react w)
  /\ isProcessing (react w') = false
  /\ conversation (react w') =
     conversation (react w) ++ [agentTurnOf aiResponse lang now]
  /\ dispatched (log w') = dispatched (log w)
  /\ currentTask (react w') =
     match determineTaskType (p_input p), currentTask (p_env p) with
     | Some ty, None => Some (newTask ty lang now)
     | _, Some t => Some (advanceTask t)
     | None, None => currentTask (react w)
     end
  /\ creations (log w') =
     (creations (log w) +
      match determineTaskType (p_input p), currentTask (p_env p) with
      | Some _, None => if auth_ok io then 1 else 0
      | _, _ => 0
      end)%nat
  /\ completions (log w') =
     (completions (log w) +
      match currentTask (p_env p) with
      | Some t =>
          if (length_of (steps t) - 1 <=? currentStep (advanceTask t))%Z
             && onTaskComplete_given (host w)
          then 1 else 0
      | None => 0
      end)%nat.
Proof.
  unfold handleUserInput_resolved, updateTaskContext, speakResponse,
    setConversationTimeout, taskStoreCall, synthSpeak, when, exec, bind,
    getHost.
  destruct (determineTaskType (p_input p)), (currentTask (p_env p));
    split_tests; count_effects; repeat split; reflexivity.
Qed.

Lemma handleUserInput_rejected_effect (p : Pending) (io : IO) (w : World) :
  let w' := exec (handleUserInput_rejected p io) w in
  host w' = host w /\ refs w' = refs w
  /\ isActive (react w') = isActive (react w)
  /\ isProcessing (react w') = false
  /\ conversation (react w') = conversation (react w)
  /\ currentTask (react w') = currentTask (react w)
  /\ creations (log w') = creations (log w)
  /\ completions (log w') = completions (log w)
  /\ dispatched (log w') = dispatched (log w)
  /\ isListening (react w') = isListening (react w).
Proof.
  unfold handleUserInput_rejected, speakResponse, synthSpeak, exec, bind,
    getHost.
  split_tests; count_effects; repeat split; reflexivity.
Qed.

Lemma toggleAgent_frame (env : State) (mic : MicOutcome) (w : World) :
  let w' := exec (toggleAgent env mic) w in
  host w' = host w
  /\ isActive (react w') = negb (isActive env)
  /\ (isActive env = false ->
      isProcessing (react w') = isProcessing (react w)
      /\ isSpeaking (react w') = isSpeaking (react w))
  /\ conversation (react w') = conversation (react w)
  /\ currentTask (react w') = currentTask (react w)
  /\ creations (log w') = creations (log w)
  /\ completions (log w') = completions (log w)
  /\ dispatched (log w') = dispatched (log w).
Proof.
  unfold toggleAgent, initializeAudioVisualization,
    initializeSpeechRecognition, when, exec, bind, getHost, getRefs.
  destruct mic, (isActive env); split_tests; count_effects; repeat split;
    try reflexivity; discriminate.
Qed.

Lemma continueTaskFlow_frame (env : State) (io : IO) (w : World) :
  let w' := exec (continueTaskFlow env io) w in
  host w' = host w /\ refs w' = refs w
  /\ isActive (react w') = isActive (react w)
  /\ isProcessing (react w') = isProcessing (react w)
  /\ conversation (react w') = conversation (react w)
  /\ currentTask (react w') = currentTask (react w)
  /\ creations (log w') = creations (log w)
  /\ completions (log w') = completions (log w)
  /\ dispatched (log w') = dispatched (log w).
Proof.
  unfold continueTaskFlow.
  destruct (currentTask env) as [t|]; [|cbn; repeat split; reflexivity].
  destruct (negb (Status_eqb (status t) active));
    [cbn; repeat split; reflexivity | apply speakResponse_frame].
Qed.

Lemma advanceTask_step (t : TaskContext) :
  currentStep (advanceTask t) =
  Z.min (currentStep t + 1) (length_of (steps t) - 1).
Proof. reflexivity. Qed.

Lemma recognition_onresult_unfold (env : State) (results : ResultList)
    (now : Z) (w : World) :
  let final := finalTranscript results in
  let w0 := with_react (with_transcript (shownTranscript results)) w in
  recognition_onresult env results now w =
  if truthy (trim final) then handleUserInput env (trim final) now w0
  else (None, w0).
Proof.
  unfold recognition_onresult, bind, setTranscript. cbn.
  now destruct (truthy (trim (finalTranscript results))).
Qed.

(* ===================================================================== *)
(** ** Language detection *)
(* ===================================================================== *)

(** C10. The tag is [ja] exactly when some code unit of the text lies in
    U+3040-U+309F, U+30A0-U+30FF or U+4E00-U+9FAF, and [en] in every other
    case; and the tag [handleUserInput] attaches to the user turn is this
    function of its argument, whatever the render, the clock and the
    component hold. *)
Theorem detectLanguage_spec (text : jsstring) :
  let japanese :=
    exists c, In c text /\
      (0x3040 <= c <= 0x309F \/ 0x30A0 <= c <= 0x30FF
       \/ 0x4E00 <= c <= 0x9FAF)%N in
  (detectLanguage text = ja <-> japanese)
  /\ (detectLanguage text = en <-> ~ japanese)
  /\ forall (env : State) (now : Z) (w : World),
       match fst (handleUserInput env text now w) with
       | Some p => turn_language (p_userTurn p) = detectLanguage text
       | None => True
       end.
Proof.
  cbv zeta.
  assert (E : existsb japaneseRegex text = true <->
              exists c, In c text /\
                (0x3040 <= c <= 0x309F \/ 0x30A0 <= c <= 0x30FF
                 \/ 0x4E00 <= c <= 0x9FAF)%N).
  { rewrite existsb_exists. split; intros [c [Hin Hc]]; exists c;
      (split; [exact Hin | now apply japaneseRegex_spec]). }
  split; [|split].
  - unfold detectLanguage. destruct (existsb japaneseRegex text).
    + split; [intros _; now apply E | reflexivity].
    + split; [discriminate | intros Hc; apply E in Hc; discriminate].
  - unfold detectLanguage. destruct (existsb japaneseRegex text).
    + split; [discriminate | intros Hn; exfalso; apply Hn; now apply E].
    + split; [intros _ Hc; apply E in Hc; discriminate | reflexivity].
  - intros env now w.
    destruct (isProcessing env || isSpeaking env)%bool eqn:Hbusy.
    + now rewrite handleUserInput_busy.
    + destruct (handleUserInput_free env text now w Hbusy) as [-> _].
      reflexivity.
Qed.

(* ===================================================================== *)
(** ** Speech synthesis *)
(* ===================================================================== *)

(** With the Web Speech API present, a non-blank text is appended to the
    platform queue behind whatever is there. *)
Lemma speakResponse_enqueues (text : jsstring) (lang : Lang) (io : IO)
    (w : World) :
  truthy (trim text) = true ->
  speechSynthesis_in_window (host w) = true ->
  let w' := exec (speakResponse text lang io) w in
  synth w' = synth w ++ [{| utext := text; ulang := lang |}]
  /\ log w' = log w ++ [SynthSpeak {| utext := text; ulang := lang |}]
  /\ isSpeaking (react w') = true.
Proof.
  intros Ht Hs. unfold speakResponse, synthSpeak, exec, bind, getHost.
  rewrite Ht. cbn. rewrite Hs. cbn. repeat split; reflexivity.
Qed.

(** C7 fails on the code.  [speak("A")] directly followed by [speak("B")]
    in the autonomous agent: nothing is cancelled, both utterances sit in the
    platform queue in call order, and when "A" ends "B" is still to be
    spoken.  The component gets there by itself: while the answer of a turn
    is spoken, the turn's timer fires and the next-step prompt is queued
    behind it.  The same two calls in [VoiceInterface] leave "B" alone in
    the queue. *)
Theorem second_utterance_queued_behind_first :
  let A := {| utext := lit "A"; ulang := en |} in
  let B := {| utext := lit "B"; ulang := en |} in
  let w := world Scenario.started in
  let w' := exec (speakResponse (lit "A") en Scenario.io_ok ;;
                  speakResponse (lit "B") en Scenario.io_ok) w in
  synth w' = [A; B]
  /\ log w' = log w ++ [SynthSpeak A; SynthSpeak B]
  /\ Synth.finish (synth w') = [B]
  /\ synth (world Scenario.prompted) =
     [{| utext := lit "OK"; ulang := en |};
      {| utext := nextStepPrompt onboarding ja; ulang := ja |}]
  /\ VoiceInterface.synth
       (VoiceInterface.speakResponse Scenario.browser en (lit "B")
          (VoiceInterface.speakResponse Scenario.browser en (lit "A")
             {| VoiceInterface.isSpeaking := false;
                VoiceInterface.synth := [] |})) = [B].
Proof. vm_compute. repeat split; reflexivity. Qed.

(* ===================================================================== *)
(** ** Starting without a microphone *)
(* ===================================================================== *)

(** C8, as the specification has it, fails: started with the microphone
    denied, the agent does not stay idle. *)
Lemma denied_start_not_idle :
  ~ phase (react (world (step (mount Scenario.browser) (Toggle MicDenied))))
    = idle.
Proof. vm_compute. discriminate. Qed.

(** C8, amended.  When [getUserMedia] rejects on start, the rejection is
    caught and written to the console and nothing else reports it; the agent
    is switched on all the same: [isActive] is set, the recognition object
    is built where the browser has one, and the welcome message is
    scheduled. *)
Theorem denied_start_still_activates (m : Machine) :
  isActive (react (world m)) = false ->
  let w := world m in
  let m' := step m (Toggle MicDenied) in
  isActive (react (world m')) = true
  /\ phase (react (world m')) <> idle
  /\ log (world m') =
     log w ++ [GetUserMedia; ConsoleError (lit "Error accessing microphone:")]
       ++ (if speechRecognition_in_window (host w) then []
           else [ConsoleWarn (lit "Speech recognition not supported")])
       ++ [SetTimeout (WelcomeTimer (welcomeMessage (language (react w)))
                                    (language (react w))) 1000]
  /\ recognitionRef (refs (world m')) =
     (speechRecognition_in_window (host w) || recognitionRef (refs w))%bool
  /\ streamRef (refs (world m')) = streamRef (refs w)
  /\ inflight m' = inflight m.
Proof.
  intros Hoff. cbn. unfold toggleAgent. rewrite Hoff.
  unfold initializeAudioVisualization, initializeSpeechRecognition, exec,
    bind, getHost, phase.
  cbn. destruct (speechRecognition_in_window (host (world m))); cbn;
    rewrite <- ?app_assoc; cbn; repeat split; try reflexivity;
    destruct (isProcessing (react (world m))),
             (isSpeaking (react (world m))); discriminate.
Qed.

Lemma denied_start_still_activates_witness :
  isActive (react (world (step (mount Scenario.browser) (Toggle MicDenied))))
  = true.
Proof.
  apply (@denied_start_still_activates (mount Scenario.browser)).
  reflexivity.
Defined.

(* ===================================================================== *)
(** ** Responses that arrive after [stop()] *)
(* ===================================================================== *)

(** C1, as the specification has it, fails: the agent is stopped with the
    registration request in flight, and the response that then arrives is
    appended to the conversation and creates the task. *)
Lemma stale_response_not_discarded :
  phase (react (world Scenario.stopped_mid_turn)) = idle
  /\ ~ result_discarded Scenario.stopped_mid_turn
         (Scenario.answered "OK" 12000).
Proof.
  split; [reflexivity|]. intros [Hconv _].
  apply (f_equal (@List.length _)) in Hconv. vm_compute in Hconv.
  discriminate.
Qed.

(** C1, amended.  [stop()] leaves a suspended inference call in flight, and
    when its response arrives it is applied as in a live session: the agent
    turn is appended to the conversation and the task is created or advanced
    from the task the call captured when it was dispatched.  A dispatch
    carries the prompt and a token limit, no sequence number, and nothing is
    compared on arrival. *)
Theorem late_response_is_applied (m : Machine) (mic : MicOutcome) (i : nat)
    (p : Pending) (aiResponse : jsstring) (now : Z) (io : IO) :
  isActive (react (world m)) = true ->
  nth_error (inflight m) i = Some p ->
  let stopped := step m (Toggle mic) in
  let m' := step stopped (InferenceResolved i aiResponse now io) in
  let lang := turn_language (p_userTurn p) in
  phase (react (world stopped)) = idle
  /\ nth_error (inflight stopped) i = Some p
  /\ conversation (react (world m')) =
     conversation (react (world stopped)) ++ [agentTurnOf aiResponse lang now]
  /\ currentTask (react (world m')) =
     match determineTaskType (p_input p), currentTask (p_env p) with
     | Some ty, None => Some (newTask ty lang now)
     | _, Some t => Some (advanceTask t)
     | None, None => currentTask (react (world stopped))
     end.
Proof.
  intros Hon Hp. cbv zeta.
  pose proof (toggleAgent_frame (react (world m)) mic (world m)) as T.
  cbv zeta in T. destruct T as (_ & Hact & _).
  rewrite Hon in Hact.
  split; [|split].
  - unfold phase. cbn [step lift world]. now rewrite Hact.
  - exact Hp.
  - cbn [step lift inflight world]. rewrite Hp. cbn [world].
    pose proof (handleUserInput_resolved_effect p aiResponse now io
                  (exec (toggleAgent (react (world m)) mic) (world m))) as R.
    cbv zeta in R. destruct R as (_ & _ & _ & Hconv & _ & Ht & _).
    split; assumption.
Qed.

Lemma late_response_is_applied_witness :
  isActive (react (world Scenario.registering)) = true
  /\ List.length
       (conversation (react (world
          (step Scenario.stopped_mid_turn (Scenario.answered "OK" 12000)))))
     = 2%nat.
Proof.
  assert (Hon : isActive (react (world Scenario.registering)) = true)
    by (vm_compute; reflexivity).
  assert (Hp : nth_error (inflight Scenario.registering) 0 =
               Some {| p_env := react (world Scenario.started);
                       p_input := lit "register new customer Tanaka";
                       p_userTurn :=
                         userTurnOf (lit "register new customer Tanaka")
                                    10000 |})
    by (vm_compute; reflexivity).
  split; [exact Hon|].
  destruct (@late_response_is_applied _ MicGranted 0 _ (lit "OK") 12000
              Scenario.io_ok Hon Hp) as (_ & _ & Hconv & _).
  unfold Scenario.answered, Scenario.stopped_mid_turn.
  rewrite Hconv. vm_compute. reflexivity.
Defined.

(* ===================================================================== *)
(** ** Transcripts that arrive during a turn *)
(* ===================================================================== *)

(** C2, as the specification has it, fails: "send the email" is finalized
    while the registration request is being resolved; when the turn is over
    and nothing is in flight, it has not been handed to inference. *)
Lemma second_transcript_lost :
  phase (react (world Scenario.registering)) = dispatching
  /\ phase (react (world (run Scenario.started Scenario.overlapping)))
     = listening
  /\ inflight (run Scenario.started Scenario.overlapping) = []
  /\ ~ no_transcript_lost Scenario.started Scenario.overlapping.
Proof.
  split; [reflexivity|]. split; [reflexivity|]. split; [reflexivity|].
  intros H.
  specialize (H [(lit "send the email", true)] 11000).
  assert (Hin : In (lit "send the email")
                   (dispatched (log (world (run Scenario.started
                                              Scenario.overlapping))))).
  { apply H; [right; left; reflexivity | reflexivity]. }
  vm_compute in Hin. destruct Hin as [Hin|[]].
  discriminate.
Qed.

(** An event of a recognition object built at the render now shown is the
    case [env = react (world m)] of the general event. *)
Lemma live_recognition_result (m : Machine) (results : ResultList) (now : Z) :
  step m (RecognitionResult results now) =
  step m (RecognitionResultOf (react (world m)) results now).
Proof. reflexivity. Qed.

(** Only a recognition result dispatches. *)
Lemma other_events_dispatch_nothing (m : Machine) (ev : Event) :
  is_recognition_result ev = false ->
  dispatched (log (world (step m ev))) = dispatched (log (world m)).
Proof.
  destruct ev as [mic | results now | env results now | i a now io | i io
                  | | | t io]; cbn [is_recognition_result];
    try discriminate; intros _; cbn [step].
  - apply toggleAgent_frame.
  - destruct (nth_error (inflight m) i) as [p|]; [|reflexivity].
    apply handleUserInput_resolved_effect.
  - destruct (nth_error (inflight m) i) as [p|]; [|reflexivity].
    apply handleUserInput_rejected_effect.
  - destruct (synth (world m)); reflexivity.
  - reflexivity.
  - destruct t as [message lang | env]; cbn [step lift world].
    + apply speakResponse_frame.
    + unfold conversationTimeout_fired.
      destruct (isActive env && negb (isSpeaking env))%bool;
        [apply continueTaskFlow_frame | reflexivity].
Qed.

(** C2, amended.  The component has no queue: only an arriving transcript
    is ever dispatched.  Take a finalized transcript that reaches a handler
    which sees [isProcessing] and [isSpeaking] as they are - the recognition
    object has been rebuilt since they last changed.  If the component is
    dispatching or speaking, the transcript is discarded: apart from the
    transcript shown on screen the component is as before, so nothing is
    dispatched for it, then or later.  If neither flag is set, it is logged
    and dispatched once, at once.  What becomes of a transcript that reaches
    the handler of an earlier render is left open here. *)
Theorem busy_transcript_is_discarded (m : Machine) (env : State)
    (results : ResultList) (now : Z) :
  recognitionRef (refs (world m)) = true ->
  isProcessing env = isProcessing (react (world m)) ->
  isSpeaking env = isSpeaking (react (world m)) ->
  let m' := step m (RecognitionResultOf env results now) in
  let text := trim (finalTranscript results) in
  step m (RecognitionResult results now) =
    step m (RecognitionResultOf (react (world m)) results now)
  /\ (phase (react (world m)) = dispatching
      \/ phase (react (world m)) = speaking ->
      m' = {| world := with_react (with_transcript (shownTranscript results))
                                  (world m);
              inflight := inflight m |})
  /\ (isProcessing (react (world m)) = false ->
      isSpeaking (react (world m)) = false ->
      truthy text = true ->
      inflight m' =
        inflight m ++ [{| p_env := env; p_input := text;
                          p_userTurn := userTurnOf text now |}]
      /\ conversation (react (world m')) =
         conversation (react (world m)) ++ [userTurnOf text now]
      /\ dispatched (log (world m')) = dispatched (log (world m)) ++ [text])
  /\ (forall (m0 : Machine) (ev : Event),
        is_recognition_result ev = false ->
        dispatched (log (world (step m0 ev))) = dispatched (log (world m0))).
Proof.
  intros Hrec Hproc Hspk. cbv zeta.
  split; [reflexivity|]. split; [|split].
  - intros Hphase.
    assert (Hbusy : (isProcessing env || isSpeaking env)%bool = true).
    { rewrite Hproc, Hspk. unfold phase in Hphase.
      destruct (isActive (react (world m))), (isProcessing (react (world m))),
        (isSpeaking (react (world m))); cbn in *;
        destruct Hphase; try discriminate; reflexivity. }
    cbn [step]. rewrite Hrec, recognition_onresult_unfold.
    destruct (truthy (trim (finalTranscript results))).
    + rewrite handleUserInput_busy by exact Hbusy. now rewrite app_nil_r.
    + now rewrite app_nil_r.
  - intros Hp Hs Htext. cbn [step].
    assert (Hfree : (isProcessing env || isSpeaking env)%bool = false)
      by now rewrite Hproc, Hspk, Hp, Hs.
    rewrite Hrec, recognition_onresult_unfold, Htext.
    set (w0 := with_react _ (world m)).
    pose proof (handleUserInput_free env (trim (finalTranscript results)) now
                  w0 Hfree) as F.
    cbv zeta in F.
    destruct (handleUserInput env (trim (finalTranscript results)) now w0)
      as [r w1].
    cbn [fst snd] in F.
    destruct F as (-> & _ & _ & _ & _ & _ & _ & Hconv & _ & Hd & _).
    cbn [inflight world]. rewrite Hconv, Hd. repeat split; reflexivity.
  - intros m0 ev. apply other_events_dispatch_nothing.
Qed.

Lemma busy_transcript_is_discarded_witness :
  recognitionRef (refs (world Scenario.registering)) = true
  /\ phase (react (world Scenario.registering)) = dispatching
  /\ inflight (step Scenario.registering
                    (Scenario.said "send the email" 11000))
     = inflight Scenario.registering.
Proof.
  assert (Hrec : recognitionRef (refs (world Scenario.registering)) = true)
    by (vm_compute; reflexivity).
  assert (Hph : phase (react (world Scenario.registering)) = dispatching)
    by (vm_compute; reflexivity).
  split; [exact Hrec|]. split; [exact Hph|].
  destruct (@busy_transcript_is_discarded Scenario.registering
              (react (world Scenario.registering))
              [(lit "send the email", true)] 11000 Hrec eq_refl eq_refl)
    as (Hlive & Hdrop & _).
  unfold Scenario.said. rewrite Hlive, (Hdrop (or_introl Hph)). reflexivity.
Defined.

(* ===================================================================== *)
(** ** Task creation and step advancement *)
(* ===================================================================== *)

(** C3 fails on the code: the onboarding task reaches its last step and the
    callback fires; the next completed turn finds the task completed, leaves
    it as it is, and fires the callback a second time. *)
Theorem completion_callback_fires_again :
  let m := Scenario.onboarded in
  let m' := run m (Scenario.turn "thank you" 60000) in
  option_map status (currentTask (react (world m))) = Some completed
  /\ completions (log (world m)) = 1%nat
  /\ currentTask (react (world m')) = currentTask (react (world m))
  /\ completions (log (world m')) = 2%nat.
Proof. vm_compute. repeat split; reflexivity. Qed.

(** C4 fails on the code.  Two registration requests are finalized 400 ms
    apart, the second one before the recognition object has been rebuilt:
    both pass the guard of the render they reach and are dispatched.  The
    response to the first creates an onboarding task; the response to the
    second finds no task in the render it closes over and creates a second
    one, which replaces the first while that is active; two rows are written
    to the store. *)
Theorem second_task_created :
  let m1 := run Scenario.started (firstn 2 Scenario.double_registration) in
  let m2 := run Scenario.started (firstn 3 Scenario.double_registration) in
  let m3 := run Scenario.started Scenario.double_registration in
  determineTaskType (lit "register new customer Sato") = Some onboarding
  /\ List.length (inflight m1) = 2%nat
  /\ currentTask (react (world m2)) = Some (newTask onboarding en 12000)
  /\ option_map status (currentTask (react (world m2))) = Some active
  /\ creations (log (world m2)) = 1%nat
  /\ currentTask (react (world m3)) = Some (newTask onboarding en 12400)
  /\ creations (log (world m3)) = 2%nat.
Proof. vm_compute. repeat split; reflexivity. Qed.

(** C5 fails on the code.  The onboarding task is held at step 0 and two
    confirmations are finalized 400 ms apart, the second one before the
    recognition object has been rebuilt, so that both turns close over the
    task at step 0.  When both responses have arrived the task is at step 1:
    the second completed turn has not advanced it.  And when the response to
    the first confirmation is slow, the task is advanced to step 2 by later
    turns and then put back to step 1 by that response. *)
Theorem step_index_moves_back :
  let m := Scenario.registered in
  let active_in m := option_map status (currentTask (react (world m))) in
  stepIndex m = Some 0
  /\ List.length (inflight (run m (firstn 2 Scenario.double_confirmation)))
     = 2%nat
  /\ stepIndex (run m (firstn 3 Scenario.double_confirmation)) = Some 1
  /\ active_in (run m (firstn 3 Scenario.double_confirmation)) = Some active
  /\ stepIndex (run m Scenario.double_confirmation) = Some 1
  /\ stepIndex Scenario.slow_start = Some 1
  /\ stepIndex Scenario.slow_middle = Some 2
  /\ active_in Scenario.slow_middle = Some active
  /\ List.length (inflight Scenario.slow_middle) = 1%nat
  /\ stepIndex Scenario.slow_end = Some 1.
Proof. vm_compute. repeat split; reflexivity. Qed.

(** C6 fails on the code.  In a fresh session "register new customer
    Tanaka" is tagged English and its turn creates the five-step onboarding
    task at step 0 with progress 0, which the next completed turn takes to
    step 1 with progress 20.  But when the component holds the completed
    task of an earlier registration, so that no task is active, the same
    input creates nothing: the completed task stays in the cell, at step 4
    with progress 80, and no row is written. *)
Theorem registration_ignored_after_completion :
  let input := "register new customer Tanaka"%string in
  let fresh := run Scenario.started (Scenario.turn input 10000) in
  let m := Scenario.onboarded in
  let m' := run m (Scenario.turn input 60000) in
  detectLanguage (lit input) = en
  /\ determineTaskType (lit input) = Some onboarding
  /\ currentTask (react (world fresh)) = Some (newTask onboarding en 12000)
  /\ List.length (steps (newTask onboarding en 12000)) = 5%nat
  /\ progress (newTask onboarding en 12000) = 0%float
  /\ stepIndex (run fresh (Scenario.turn "yes" 20000)) = Some 1
  /\ option_map progress
       (currentTask (react (world (run fresh (Scenario.turn "yes" 20000)))))
     = Some 20%float
  /\ ready m /\ no_active_task (react (world m))
  /\ currentTask (react (world m')) = currentTask (react (world m))
  /\ stepIndex m' = Some 4
  /\ option_map progress (currentTask (react (world m'))) = Some 80%float
  /\ creations (log (world m')) = creations (log (world m)).
Proof.
  vm_compute. repeat split; try reflexivity. discriminate.
Qed.

(** A finalized transcript that reaches a ready component is handed to
    [handleUserInput], which suspends at the inference call. *)
Lemma accepted_transcript (m : Machine) (input : jsstring) (now : Z) :
  ready m -> truthy (trim input) = true ->
  let text := trim input in
  let w0 := with_react (with_transcript (shownTranscript [(input, true)]))
                       (world m) in
  step m (RecognitionResult [(input, true)] now) =
  {| world := snd (handleUserInput (react (world m)) text now w0);
     inflight := [{| p_env := react (world m); p_input := text;
                     p_userTurn := userTurnOf text now |}] |}.
Proof.
  intros (Hrec & Hproc & Hspk & Hnil) Htext. cbv zeta.
  cbn [step]. rewrite Hrec, recognition_onresult_unfold.
  assert (Hfin : finalTranscript [(input, true)] = input)
    by (cbn; apply app_nil_r).
  rewrite Hfin, Htext.
  assert (Hfree : (isProcessing (react (world m))
                   || isSpeaking (react (world m)))%bool = false)
    by now rewrite Hproc, Hspk.
  set (w0 := with_react _ (world m)).
  pose proof (handleUserInput_free (react (world m)) (trim input) now w0
                Hfree) as F.
  cbv zeta in F.
  destruct (handleUserInput (react (world m)) (trim input) now w0) as [r w1].
  cbn [fst snd] in *. destruct F as [-> _]. now rewrite Hnil.
Qed.

(* ===================================================================== *)
(** ** Failure of the inference call *)
(* ===================================================================== *)

Lemma errorMessage_spoken (lang : Lang) :
  truthy (trim (errorMessage lang)) = true
  /\ detectLanguage (errorMessage lang) = lang.
Proof. destruct lang; split; reflexivity. Qed.

(** What the [catch] block does, call by call. *)
Lemma handleUserInput_rejected_log (p : Pending) (io : IO) (w : World) :
  let lang := turn_language (p_userTurn p) in
  let w' := exec (handleUserInput_rejected p io) w in
  log w' =
    log w ++ ConsoleError (lit "Error processing input:")
      :: (if speechSynthesis_in_window (host w)
          then [SynthSpeak {| utext := errorMessage lang; ulang := lang |}]
          else GenerateSpeech (errorMessage lang) (voiceFor lang)
               :: (if speech_ok io then [AudioPlay]
                   else [ConsoleError (lit "Error speaking response:")]))
  /\ isSpeaking (react w') =
     (speechSynthesis_in_window (host w) || speech_ok io)%bool
  /\ (speechSynthesis_in_window (host w) = true -> synth w' <> []).
Proof.
  cbv zeta. unfold handleUserInput_rejected, speakResponse, exec, bind.
  destruct (errorMessage_spoken (turn_language (p_userTurn p))) as [-> _].
  unfold synthSpeak, getHost, bind. cbn.
  destruct (speechSynthesis_in_window (host w)); cbn.
  - rewrite <- !app_assoc. cbn. repeat split; try reflexivity.
    intros _ H. now destruct (synth w).
  - destruct (speech_ok io); cbn; rewrite <- !app_assoc; cbn;
      repeat split; try reflexivity; discriminate.
Qed.

(** C9. A transcript is accepted by a ready, active component and its
    inference call fails.  The failure is logged and the fallback message in
    the language detected for the transcript is spoken (through the Web
    Speech API, else through the remote speech service); the conversation
    holds the user turn and no agent turn; the transcript has been handed to
    inference once and is not handed to it again; and when the message has
    been spoken (at once, if the speech service fails too) the component is
    listening again: active, neither processing nor speaking, nothing in
    flight, the recognizer left as it was, ready for the next transcript. *)
Theorem inference_failure_recovery (m : Machine) (input : jsstring) (now : Z)
    (io : IO) :
  ready m -> isActive (react (world m)) = true ->
  truthy (trim input) = true ->
  let text := trim input in
  let lang := detectLanguage text in
  let web := speechSynthesis_in_window (host (world m)) in
  let m1 := step m (RecognitionResult [(input, true)] now) in
  let m2 := step m1 (InferenceRejected 0 io) in
  let m3 := step m2 (if web then UtteranceEnd else AudioEnded) in
  detectLanguage (errorMessage lang) = lang
  /\ log (world m2) =
     log (world m1) ++ ConsoleError (lit "Error processing input:")
       :: (if web
           then [SynthSpeak {| utext := errorMessage lang; ulang := lang |}]
           else GenerateSpeech (errorMessage lang) (voiceFor lang)
                :: (if speech_ok io then [AudioPlay]
                    else [ConsoleError (lit "Error speaking response:")]))
  /\ conversation (react (world m2)) =
     conversation (react (world m)) ++ [userTurnOf text now]
  /\ dispatched (log (world m2)) = dispatched (log (world m)) ++ [text]
  /\ inflight m2 = []
  /\ phase (react (world m2)) =
     (if (web || speech_ok io)%bool then speaking else listening)
  /\ phase (react (world m3)) = listening
  /\ ready m3
  /\ isListening (react (world m3)) = isListening (react (world m))
  /\ dispatched (log (world m3)) = dispatched (log (world m2)).
Proof.
  intros Hready Hon Htext. cbv zeta.
  rewrite (@accepted_transcript m input now Hready Htext).
  destruct Hready as (Hrec & Hproc & Hspk & _).
  assert (Hfree : (isProcessing (react (world m))
                   || isSpeaking (react (world m)))%bool = false)
    by now rewrite Hproc, Hspk.
  pose proof (handleUserInput_free (react (world m)) (trim input) now
                (with_react (with_transcript
                               (shownTranscript [(input, true)])) (world m))
                Hfree) as F.
  cbv zeta in F.
  set (w1 := snd (handleUserInput _ _ _ _)) in *.
  destruct F as (_ & Hh & Hrefs & _ & Hact & _ & _ & Hconv & _ & Hd & _ & _
                 & Hlis).
  cbn [react with_react host refs conversation isActive isListening
       with_transcript log] in *.
  set (p := {| p_env := react (world m); p_input := trim input;
               p_userTurn := userTurnOf (trim input) now |}).
  cbn [step inflight nth_error world remove_nth].
  pose proof (handleUserInput_rejected_effect p io w1) as R.
  pose proof (handleUserInput_rejected_log p io w1) as L.
  cbv zeta in R, L. set (w2 := exec (handleUserInput_rejected p io) w1) in *.
  destruct R as (_ & Hrefs2 & Hact2 & Hproc2 & Hconv2 & _ & _ & _ & Hd2
                 & Hlis2).
  destruct L as (Hlog & Hspk2 & Hq).
  cbn [p p_userTurn userTurnOf turn_language] in Hlog.
  rewrite Hh in Hlog, Hspk2, Hq.
  assert (Hon2 : isActive (react w2) = true) by congruence.
  assert (Hrec2 : recognitionRef (refs w2) = true) by congruence.
  assert (Hlis3 : isListening (react w2) = isListening (react (world m)))
    by congruence.
  split; [apply errorMessage_spoken|].
  split; [exact Hlog|].
  split; [congruence|].
  split; [congruence|].
  split; [reflexivity|].
  split.
  { unfold phase. rewrite Hon2, Hproc2, Hspk2. cbn.
    now destruct (speechSynthesis_in_window (host (world m)) || speech_ok io)%bool. }
  unfold ready, phase.
  destruct (speechSynthesis_in_window (host (world m))) eqn:Hweb.
  - cbn [step world]. specialize (Hq eq_refl).
    destruct (synth w2) as [|u q] eqn:Hsynth; [now destruct Hq|].
    cbn. rewrite Hon2, Hproc2, Hrec2, Hlis3. cbn.
    repeat split; reflexivity.
  - cbn. rewrite Hon2, Hproc2, Hrec2, Hlis3. cbn.
    repeat split; reflexivity.
Qed.

Lemma inference_failure_recovery_witness :
  ready Scenario.started
  /\ phase (react (world
       (step (step (step Scenario.started
                      (RecognitionResult
                         [(lit "register new customer Tanaka", true)] 10000))
                   (InferenceRejected 0 Scenario.io_ok))
             UtteranceEnd))) = listening.
Proof.
  assert (Hr : ready Scenario.started)
    by (repeat split; vm_compute; reflexivity).
  assert (Hon : isActive (react (world Scenario.started)) = true)
    by (vm_compute; reflexivity).
  assert (Htext : truthy (trim (lit "register new customer Tanaka")) = true)
    by (vm_compute; reflexivity).
  split; [exact Hr|].
  destruct (@inference_failure_recovery Scenario.started
              (lit "register new customer Tanaka") 10000 Scenario.io_ok
              Hr Hon Htext) as (_ & _ & _ & _ & _ & _ & H & _).
  exact H.
Defined.

(* ===================================================================== *)
(** * Further properties of the autonomous agent *)
(* ===================================================================== *)

(** ** Trigger lexicons *)

Lemma starts_with_spec (sub s : jsstring) :
  starts_with sub s = true <-> exists b, s = sub ++ b.
Proof.
  revert s. induction sub as [|a sub IH]; intros s; cbn.
  - split; [intros _; now exists s | reflexivity].
  - destruct s as [|c s].
    + split; [discriminate | intros [b Hb]; discriminate].
    + rewrite andb_true_iff, N.eqb_eq, IH. split.
      * intros [-> [b ->]]. now exists b.
      * intros [b Hb]. injection Hb as -> ->. split; [reflexivity | now exists b].
Qed.

Lemma includes_spec (s sub : jsstring) :
  includes s sub = true <-> occurs sub s.
Proof.
  unfold occurs. induction s as [|c s IH]; cbn [includes].
  - rewrite starts_with_spec. split.
    + intros [b Hb]. exists [], b. exact Hb.
    + intros (a & b & Hab). destruct a; [|discriminate].
      cbn in Hab. destruct sub; [now exists [] | discriminate].
  - rewrite orb_true_iff, starts_with_spec, IH. split.
    + intros [[b Hb] | (a & b & Hab)].
      * exists [], b. exact Hb.
      * exists (c :: a), b. cbn. now rewrite Hab.
    + intros (a & b & Hab). destruct a as [|c' a].
      * left. now exists b.
      * right. cbn in Hab. injection Hab as -> ->. now exists a, b.
Qed.

Lemma mentions_spec (lexicon : list jsstring) (input : jsstring) :
  existsb (includes (toLowerCase input)) lexicon = true
  <-> mentions lexicon input.
Proof.
  unfold mentions. rewrite existsb_exists.
  split; intros (kw & Hin & H); exists kw; (split; [exact Hin|]);
    now apply includes_spec.
Qed.

Lemma determineTaskType_lexicons (input : jsstring) :
  determineTaskType input =
  if existsb (includes (toLowerCase input)) onboarding_keywords
  then Some onboarding
  else if existsb (includes (toLowerCase input)) followup_keywords
  then Some followup
  else if existsb (includes (toLowerCase input)) logging_keywords
  then Some logging
  else None.
Proof.
  unfold determineTaskType, onboarding_keywords, followup_keywords,
    logging_keywords. cbn [existsb]. now rewrite !orb_false_r, !orb_assoc.
Qed.

(** X1. First match wins over substrings: the result is onboarding exactly
    when the lower-cased input contains an onboarding keyword anywhere;
    follow-up exactly when it contains no onboarding keyword and some
    follow-up keyword; logging exactly when it contains neither of those and
    some logging keyword; and no task type exactly when it contains none of
    the twelve keywords. *)
Theorem determineTaskType_first_match (input : jsstring) :
  let onb := mentions onboarding_keywords input in
  let fol := mentions followup_keywords input in
  let lg := mentions logging_keywords input in
  (determineTaskType input = Some onboarding <-> onb)
  /\ (determineTaskType input = Some followup <-> ~ onb /\ fol)
  /\ (determineTaskType input = Some logging <-> ~ onb /\ ~ fol /\ lg)
  /\ (determineTaskType input = None <-> ~ onb /\ ~ fol /\ ~ lg).
Proof.
  cbv zeta. rewrite determineTaskType_lexicons.
  rewrite <- !mentions_spec.
  destruct (existsb (includes (toLowerCase input)) onboarding_keywords),
    (existsb (includes (toLowerCase input)) followup_keywords),
    (existsb (includes (toLowerCase input)) logging_keywords);
    repeat split; intros; try discriminate; try reflexivity;
    try (intuition congruence).
Qed.

Lemma determineTaskType_onboarding (input : jsstring) :
  mentions onboarding_keywords input ->
  determineTaskType input = Some onboarding.
Proof.
  intros H. apply mentions_spec in H.
  now rewrite determineTaskType_lexicons, H.
Qed.

Lemma toLowerCase_app (a b : jsstring) :
  toLowerCase (a ++ b) = toLowerCase a ++ toLowerCase b.
Proof. apply map_app. Qed.

(** X2. An onboarding keyword wins wherever it stands and in whatever letter
    case it is written: an input that contains a word whose lower-case form
    is an onboarding keyword is classified as onboarding, whatever precedes
    and follows it. *)
Theorem onboarding_keyword_anywhere (a w b kw : jsstring) :
  In kw onboarding_keywords ->
  toLowerCase w = kw ->
  determineTaskType (a ++ w ++ b) = Some onboarding.
Proof.
  intros Hin Hw. apply determineTaskType_onboarding.
  exists kw. split; [exact Hin|].
  exists (toLowerCase a), (toLowerCase b).
  now rewrite !toLowerCase_app, Hw.
Qed.

Lemma onboarding_keyword_anywhere_witness :
  determineTaskType
    (lit "Send the follow-up email, then REGISTER Mr. Tanaka")
  = Some onboarding.
Proof.
  apply (@onboarding_keyword_anywhere
           (lit "Send the follow-up email, then ") (lit "REGISTER")
           (lit " Mr. Tanaka") (lit "register")).
  - right. right. right. left. reflexivity.
  - reflexivity.
Defined.

(** ** The life of a task *)

Lemma advanced_S (k : nat) (t : TaskContext) :
  advanced (S k) t = advanceTask (advanced k t).
Proof. reflexivity. Qed.

Lemma advanced_shape (k : nat) (t : TaskContext) :
  task_id (advanced k t) = task_id t
  /\ task_type (advanced k t) = task_type t
  /\ steps (advanced k t) = steps t.
Proof.
  induction k as [|k IH]; [repeat split|].
  rewrite advanced_S. unfold advanceTask. cbn [task_id task_type steps].
  exact IH.
Qed.

Lemma advanced_step (k : nat) (t : TaskContext) :
  0 <= currentStep t <= length_of (steps t) - 1 ->
  currentStep (advanced k t) =
  Z.min (currentStep t + Z.of_nat k) (length_of (steps t) - 1).
Proof.
  intros Hb. induction k as [|k IH].
  - cbn. lia.
  - rewrite advanced_S, advanceTask_step, IH.
    destruct (advanced_shape k t) as (_ & _ & ->). lia.
Qed.

Lemma advanced_status (k : nat) (t : TaskContext) :
  0 <= currentStep t <= length_of (steps t) - 1 ->
  status t = active ->
  currentStep t < length_of (steps t) - 1 ->
  status (advanced k t) =
  if length_of (steps t) - 1 <=? currentStep t + Z.of_nat k
  then completed else active.
Proof.
  intros Hb Hact Hlt. induction k as [|k IH].
  - cbn. rewrite Z.add_0_r.
    destruct (Z.leb_spec (length_of (steps t) - 1) (currentStep t)); [lia|].
    exact Hact.
  - rewrite advanced_S. unfold advanceTask at 1. cbn [status].
    destruct (advanced_shape k t) as (_ & _ & Hs). rewrite Hs.
    rewrite (@advanced_step k t Hb), IH.
    destruct (Z.leb_spec (length_of (steps t) - 1)
                (Z.min (Z.min (currentStep t + Z.of_nat k)
                          (length_of (steps t) - 1) + 1)
                   (length_of (steps t) - 1)));
      destruct (Z.leb_spec (length_of (steps t) - 1)
                  (currentStep t + Z.of_nat (S k)));
      destruct (Z.leb_spec (length_of (steps t) - 1)
                  (currentStep t + Z.of_nat k));
      try reflexivity; lia.
Qed.

(** X3. A task created by [updateTaskContext] and advanced [k] times keeps
    its id, type and step list; its index is [min k (n - 1)] for its [n]
    steps (five for onboarding, four otherwise); and it is active as long as
    [k < n - 1] and completed from then on: onboarding completes with the
    fourth advancing turn, the other workflows with the third. *)
Theorem task_lifecycle (ty : TaskType) (lang : Lang) (now : Z) (k : nat) :
  let n := match ty with onboarding => 5 | _ => 4 end in
  let t := advanced k (newTask ty lang now) in
  task_id t = now /\ task_type t = ty
  /\ steps t = getTaskSteps ty lang
  /\ length_of (steps t) = n
  /\ currentStep t = Z.min (Z.of_nat k) (n - 1)
  /\ status t = (if n - 1 <=? Z.of_nat k then completed else active).
Proof.
  cbv zeta.
  assert (Hn : length_of (steps (newTask ty lang now)) =
               match ty with onboarding => 5 | _ => 4 end)
    by (destruct ty, lang; reflexivity).
  assert (Hb : 0 <= currentStep (newTask ty lang now)
               <= length_of (steps (newTask ty lang now)) - 1)
    by (rewrite Hn; cbn [newTask currentStep]; destruct ty; lia).
  destruct (advanced_shape k (newTask ty lang now)) as (Hid & Hty & Hs).
  rewrite Hid, Hty, Hs.
  rewrite (@advanced_step k _ Hb), advanced_status, Hn;
    [ | exact Hb | reflexivity
      | rewrite Hn; cbn [newTask currentStep]; destruct ty; lia ].
  cbn [newTask task_id task_type steps currentStep] in *.
  rewrite !Z.add_0_l. repeat split; reflexivity || exact Hn.
Qed.

(** X4. The progress shown for a completed task is never 100: computed as
    [(currentStep / steps.length) * 100] at the last index, it is 80 for the
    five-step onboarding workflow and 75 for the four-step ones. *)
Theorem completed_progress (ty : TaskType) (lang : Lang) (now : Z) (k : nat) :
  status (advanced k (newTask ty lang now)) = completed ->
  progress (advanced k (newTask ty lang now)) =
  match ty with onboarding => 80%float | _ => 75%float end.
Proof.
  intros Hdone.
  destruct k as [|k]; [discriminate|].
  assert (Hn : length_of (steps (newTask ty lang now)) =
               match ty with onboarding => 5 | _ => 4 end)
    by (destruct ty, lang; reflexivity).
  assert (Hb : 0 <= currentStep (newTask ty lang now)
               <= length_of (steps (newTask ty lang now)) - 1)
    by (rewrite Hn; cbn [newTask currentStep]; destruct ty; lia).
  assert (Hlt : currentStep (newTask ty lang now)
                < length_of (steps (newTask ty lang now)) - 1)
    by (rewrite Hn; cbn [newTask currentStep]; destruct ty; lia).
  rewrite (@advanced_status (S k) _ Hb eq_refl Hlt) in Hdone.
  pose proof (@advanced_step (S k) _ Hb) as Hstep.
  destruct (Z.leb_spec (length_of (steps (newTask ty lang now)) - 1)
              (currentStep (newTask ty lang now) + Z.of_nat (S k)));
    [|discriminate].
  rewrite Z.min_r in Hstep by lia.
  rewrite advanced_S in Hstep |- *.
  unfold advanceTask in Hstep |- *. cbn [currentStep progress] in Hstep |- *.
  rewrite Hstep.
  destruct (advanced_shape k (newTask ty lang now)) as (_ & _ & ->).
  destruct ty, lang; vm_compute; reflexivity.
Qed.

Lemma completed_progress_witness :
  status (advanced 4 (newTask onboarding en 0)) = completed
  /\ progress (advanced 4 (newTask onboarding en 0)) = 80%float.
Proof.
  split; [reflexivity|].
  apply (@completed_progress onboarding en 0 4). reflexivity.
Defined.

(** ** The conversation log *)

Lemma remove_nth_length {A} (l : list A) :
  forall i x, nth_error l i = Some x ->
              S (List.length (remove_nth i l)) = List.length l.
Proof.
  induction l as [|a l IH]; intros [|i] x H; cbn in *; try discriminate.
  - reflexivity.
  - now rewrite (IH i x H).
Qed.

Lemma user_turns_app (a b : list ConversationTurn) :
  user_turns (a ++ b) = (user_turns a + user_turns b)%nat.
Proof. unfold user_turns. now rewrite filter_app, length_app. Qed.

Lemma agent_turns_app (a b : list ConversationTurn) :
  agent_turns (a ++ b) = (agent_turns a + agent_turns b)%nat.
Proof. unfold agent_turns. now rewrite filter_app, length_app. Qed.

(** What one event adds to the log, to the dispatches and to the calls in
    flight. *)
Lemma step_delta (m : Machine) (ev : Event) :
  exists l : list ConversationTurn,
    conversation (react (world (step m ev))) =
      conversation (react (world m)) ++ l
    /\ (List.length l <= 1)%nat
    /\ List.length (dispatched (log (world (step m ev)))) =
       (List.length (dispatched (log (world m))) + user_turns l)%nat
    /\ (List.length (inflight (step m ev)) + agent_turns l
        <= List.length (inflight m) + user_turns l)%nat.
Proof.
  assert (Hsame : forall m' : Machine,
            conversation (react (world m')) = conversation (react (world m)) ->
            dispatched (log (world m')) = dispatched (log (world m)) ->
            (List.length (inflight m') <= List.length (inflight m))%nat ->
            exists l : list ConversationTurn,
              conversation (react (world m')) =
                conversation (react (world m)) ++ l
              /\ (List.length l <= 1)%nat
              /\ List.length (dispatched (log (world m'))) =
                 (List.length (dispatched (log (world m))) + user_turns l)%nat
              /\ (List.length (inflight m') + agent_turns l
                  <= List.length (inflight m) + user_turns l)%nat).
  { intros m' Hc Hd Hf. exists []. rewrite Hc, Hd, app_nil_r. cbn.
    repeat split; lia. }
  assert (Hhear : forall env results now,
            exists l : list ConversationTurn,
              conversation (react (world
                 (step m (RecognitionResultOf env results now)))) =
                conversation (react (world m)) ++ l
              /\ (List.length l <= 1)%nat
              /\ List.length (dispatched (log (world
                    (step m (RecognitionResultOf env results now))))) =
                 (List.length (dispatched (log (world m))) + user_turns l)%nat
              /\ (List.length (inflight
                     (step m (RecognitionResultOf env results now)))
                  + agent_turns l
                  <= List.length (inflight m) + user_turns l)%nat).
  { intros env results now. cbn [step].
    destruct (recognitionRef (refs (world m))); [|apply Hsame; auto].
    rewrite recognition_onresult_unfold.
    set (w0 := with_react _ (world m)).
    destruct (truthy (trim (finalTranscript results))).
    2:{ apply Hsame; cbn; rewrite ?app_nil_r; auto. }
    destruct (isProcessing env || isSpeaking env)%bool eqn:Hbusy.
    + rewrite handleUserInput_busy by exact Hbusy.
      apply Hsame; cbn; rewrite ?app_nil_r; auto.
    + pose proof (handleUserInput_free env
                    (trim (finalTranscript results)) now w0 Hbusy) as F.
      cbv zeta in F.
      destruct (handleUserInput env
                  (trim (finalTranscript results)) now w0) as [r w1].
      cbn [fst snd] in F.
      destruct F as (-> & _ & _ & _ & _ & _ & _ & Hc & _ & Hd & _).
      exists [userTurnOf (trim (finalTranscript results)) now].
      cbn [world inflight]. rewrite Hc, Hd, !length_app. cbn.
      repeat split; lia. }
  destruct ev as [mic | results now | env results now | i a now io | i io
                  | | | t io];
    [ | rewrite live_recognition_result; apply Hhear | apply Hhear | .. ];
    cbn [step].
  - pose proof (toggleAgent_frame (react (world m)) mic (world m)) as T.
    cbv zeta in T. destruct T as (_ & _ & _ & Hc & _ & _ & _ & Hd).
    apply Hsame; auto.
  - destruct (nth_error (inflight m) i) as [p|] eqn:Hp; [|apply Hsame; auto].
    pose proof (handleUserInput_resolved_effect p a now io (world m)) as R.
    cbv zeta in R. destruct R as (_ & _ & _ & Hc & Hd & _).
    exists [agentTurnOf a (turn_language (p_userTurn p)) now].
    cbn [world inflight]. rewrite Hc, Hd.
    pose proof (remove_nth_length _ _ Hp). cbn. repeat split; lia.
  - destruct (nth_error (inflight m) i) as [p|] eqn:Hp; [|apply Hsame; auto].
    pose proof (handleUserInput_rejected_effect p io (world m)) as R.
    cbv zeta in R. destruct R as (_ & _ & _ & _ & Hc & _ & _ & _ & Hd & _).
    pose proof (remove_nth_length _ _ Hp).
    apply Hsame; cbn [world inflight]; auto. lia.
  - destruct (synth (world m)); apply Hsame; auto.
  - apply Hsame; auto.
  - destruct t as [message lang | env]; cbn [step].
    + pose proof (speakResponse_frame message lang io (world m)) as S.
      cbv zeta in S. destruct S as (_ & _ & _ & _ & Hc & _ & _ & _ & Hd).
      apply Hsame; auto.
    + unfold lift, conversationTimeout_fired.
      destruct (isActive env && negb (isSpeaking env))%bool.
      * pose proof (continueTaskFlow_frame env io (world m)) as S.
        cbv zeta in S. destruct S as (_ & _ & _ & _ & Hc & _ & _ & _ & Hd).
        apply Hsame; auto.
      * apply Hsame; auto.
Qed.

(** X5. The conversation log is append-only: whatever happens to the
    component, in whatever order, stop and late responses included, the log
    before is a prefix of the log after, and one event appends at most one
    turn. *)
Theorem conversation_append_only (m : Machine) (evs : list Event) :
  (exists l, conversation (react (world (run m evs))) =
             conversation (react (world m)) ++ l)
  /\ forall ev,
       (List.length (conversation (react (world (step m ev))))
        <= S (List.length (conversation (react (world m)))))%nat.
Proof.
  split.
  - revert m. induction evs as [|ev evs IH]; intros m.
    + exists []. now rewrite app_nil_r.
    + cbn [run fold_left]. destruct (IH (step m ev)) as [l2 H2].
      destruct (step_delta m ev) as (l1 & H1 & _).
      exists (l1 ++ l2). unfold run in H2. rewrite H2, H1.
      now rewrite app_assoc.
  - intros ev. destruct (step_delta m ev) as (l & -> & Hl & _).
    rewrite length_app. lia.
Qed.

(** X6. Every turn of the log is accounted for: in any run of a mounted
    component the user turns in the log are exactly as many as the calls
    made to the inference service, and the agent turns together with the
    calls still in flight never outnumber them. *)
Theorem turns_match_dispatches (h : Host) (evs : list Event) :
  let m := run (mount h) evs in
  user_turns (conversation (react (world m)))
  = List.length (dispatched (log (world m)))
  /\ (agent_turns (conversation (react (world m)))
      + List.length (inflight m)
      <= user_turns (conversation (react (world m))))%nat.
Proof.
  cbv zeta.
  assert (H : forall evs m,
            user_turns (conversation (react (world m)))
            = List.length (dispatched (log (world m))) ->
            (agent_turns (conversation (react (world m)))
             + List.length (inflight m)
             <= user_turns (conversation (react (world m))))%nat ->
            user_turns (conversation (react (world (run m evs))))
            = List.length (dispatched (log (world (run m evs))))
            /\ (agent_turns (conversation (react (world (run m evs))))
                + List.length (inflight (run m evs))
                <= user_turns (conversation (react (world (run m evs)))))%nat).
  { clear evs. induction evs as [|ev evs IH]; intros m Hu Ha.
    - now split.
    - cbn [run fold_left]. apply IH;
        destruct (step_delta m ev) as (l & Hc & _ & Hd & Hf);
        rewrite Hc, ?Hd, ?user_turns_app, ?agent_turns_app; lia. }
  apply H; vm_compute; [reflexivity | lia].
Qed.

(** ** Blank responses and blank transcripts *)

Lemma speakResponse_blank (text : jsstring) (lang : Lang) (io : IO) (w : World) :
  truthy (trim text) = false -> speakResponse text lang io w = (tt, w).
Proof. intros H. unfold speakResponse. now rewrite H. Qed.

Lemma handleUserInput_resolved_blank (p : Pending) (aiResponse : jsstring)
    (now : Z) (io : IO) (w : World) :
  truthy (trim aiResponse) = false ->
  let w' := exec (handleUserInput_resolved p aiResponse now io) w in
  isSpeaking (react w') = isSpeaking (react w)
  /\ synth w' = synth w
  /\ recognitionRef (refs w') = recognitionRef (refs w).
Proof.
  intros Hblank.
  unfold handleUserInput_resolved, updateTaskContext, speakResponse,
    setConversationTimeout, taskStoreCall, when, exec, bind, getHost.
  rewrite Hblank.
  destruct (determineTaskType (p_input p)), (currentTask (p_env p));
    split_tests; repeat split; reflexivity.
Qed.

(** X7. A response that is empty or all white space is not spoken, yet it is
    logged: the turn appends the user turn and the blank agent turn, nothing
    is handed to the synthesizer, and the component is ready for the next
    transcript as soon as the response has arrived. *)
Theorem blank_response_not_spoken (m : Machine) (input aiResponse : jsstring)
    (now now' : Z) (io : IO) :
  ready m -> truthy (trim input) = true ->
  truthy (trim aiResponse) = false ->
  let text := trim input in
  let m' := run m [RecognitionResult [(input, true)] now;
                   InferenceResolved 0 aiResponse now' io] in
  ready m'
  /\ synth (world m') = synth (world m)
  /\ conversation (react (world m')) =
     conversation (react (world m))
       ++ [userTurnOf text now;
           agentTurnOf aiResponse (detectLanguage text) now'].
Proof.
  intros Hready Htext Hblank. cbv zeta. cbn [run fold_left].
  rewrite (@accepted_transcript m input now Hready Htext).
  destruct Hready as (Hrec & Hproc & Hspk & _).
  assert (Hfree : (isProcessing (react (world m))
                   || isSpeaking (react (world m)))%bool = false)
    by now rewrite Hproc, Hspk.
  pose proof (handleUserInput_free (react (world m)) (trim input) now
                (with_react (with_transcript
                               (shownTranscript [(input, true)])) (world m))
                Hfree) as F.
  cbv zeta in F.
  set (w1 := snd (handleUserInput _ _ _ _)) in *.
  destruct F as (_ & _ & Hrefs & Hsyn & _ & _ & Hspk1 & Hconv & _).
  cbn [react with_react refs synth conversation isSpeaking with_transcript]
    in *.
  set (p := {| p_env := react (world m); p_input := trim input;
               p_userTurn := userTurnOf (trim input) now |}).
  cbn [step inflight nth_error world remove_nth].
  pose proof (handleUserInput_resolved_effect p aiResponse now' io w1) as R.
  pose proof (@handleUserInput_resolved_blank p aiResponse now' io w1 Hblank)
    as B.
  cbv zeta in R, B.
  destruct R as (_ & _ & Hproc2 & Hconv2 & _).
  destruct B as (Hspk2 & Hsyn2 & Hrec2).
  split; [|split].
  - unfold ready. cbn [world inflight].
    repeat split; congruence.
  - congruence.
  - rewrite Hconv2, Hconv, <- app_assoc. reflexivity.
Qed.

Lemma blank_response_not_spoken_witness :
  ready Scenario.started
  /\ ready (run Scenario.started
              [RecognitionResult [(lit "hello", true)] 10000;
               InferenceResolved 0 (lit "  ") 12000 Scenario.io_ok]).
Proof.
  assert (Hr : ready Scenario.started)
    by (repeat split; vm_compute; reflexivity).
  split; [exact Hr|].
  apply (@blank_response_not_spoken Scenario.started (lit "hello") (lit "  ")
           10000 12000 Scenario.io_ok Hr);
    vm_compute; reflexivity.
Defined.

(** X8. A recognition event whose final part is empty or all white space -
    an event of interim results in particular - starts no turn: nothing is
    dispatched, logged or flagged, only the transcript shown changes, to the
    interim text if there is any. *)
Theorem blank_final_starts_no_turn (m : Machine) (results : ResultList)
    (now : Z) :
  truthy (trim (finalTranscript results)) = false ->
  step m (RecognitionResult results now) =
  (if recognitionRef (refs (world m))
   then {| world := with_react (with_transcript (shownTranscript results))
                               (world m);
           inflight := inflight m |}
   else m)
  /\ (forallb (fun r => negb (snd r)) results = true ->
      shownTranscript results = List.concat (map fst results)).
Proof.
  intros Hblank. split.
  - cbn [step]. destruct (recognitionRef (refs (world m))); [|reflexivity].
    rewrite recognition_onresult_unfold, Hblank. now rewrite app_nil_r.
  - intros Hall. unfold shownTranscript, interimTranscript, finalTranscript.
    assert (Hi : filter (fun r : jsstring * bool => negb (snd r)) results
                 = results).
    { clear Hblank. induction results as [|r rs IH]; [reflexivity|].
      cbn in Hall |- *. apply andb_true_iff in Hall as [Hr Hrs].
      now rewrite Hr, IH. }
    assert (Hf : filter (fun r : jsstring * bool => snd r) results = []).
    { clear Hblank Hi. induction results as [|r rs IH]; [reflexivity|].
      cbn in Hall |- *. apply andb_true_iff in Hall as [Hr Hrs].
      apply negb_true_iff in Hr. now rewrite Hr, IH. }
    rewrite Hi, Hf. cbn [map List.concat].
    now destruct (List.concat (map fst results)).
Qed.

Lemma blank_final_starts_no_turn_witness :
  inflight (step Scenario.started
              (RecognitionResult [(lit "regis", false)] 10000)) = [].
Proof.
  assert (H : truthy (trim (finalTranscript [(lit "regis", false)])) = false)
    by (vm_compute; reflexivity).
  rewrite (proj1 (@blank_final_starts_no_turn Scenario.started
                    [(lit "regis", false)] 10000 H)).
  vm_compute. reflexivity.
Defined.

(** ** Stopping *)

(** X9. [stop()] clears the four flags and releases what the refs hold - it
    stops the recognizer and the stream, closes the audio context and clears
    the timers, each if set - and that is all: the conversation, the task,
    the transcript and the thinking notice stay as they are, the refs are not
    reset, the utterances queued at the synthesizer are not cancelled, and
    a call in flight stays in flight. *)
Theorem stop_clears_flags_only (m : Machine) (mic : MicOutcome) :
  isActive (react (world m)) = true ->
  let w := world m in
  let m' := step m (Toggle mic) in
  react (world m') =
    with_isProcessing false
      (with_isSpeaking false
         (with_isListening false (with_isActive false (react w))))
  /\ refs (world m') = refs w
  /\ synth (world m') = synth w
  /\ inflight m' = inflight m
  /\ log (world m') =
     log w
       ++ (if recognitionRef (refs w) then [RecognitionStop] else [])
       ++ (if streamRef (refs w) then [StreamStop] else [])
       ++ (if audioContextRef (refs w) then [AudioContextClose] else [])
       ++ match processingTimeoutRef (refs w) with
          | Some t => [ClearTimeout t]
          | None => []
          end
       ++ match conversationTimeoutRef (refs w) with
          | Some t => [ClearTimeout t]
          | None => []
          end.
Proof.
  intros Hon. cbn. unfold toggleAgent. rewrite Hon.
  unfold when, exec, bind, getRefs. cbn.
  destruct (recognitionRef (refs (world m))),
    (streamRef (refs (world m))), (audioContextRef (refs (world m))),
    (processingTimeoutRef (refs (world m))),
    (conversationTimeoutRef (refs (world m)));
    cbn; rewrite <- ?app_assoc; cbn; rewrite ?app_nil_r;
    repeat split; reflexivity.
Qed.

Lemma stop_clears_flags_only_witness :
  isActive (react (world Scenario.registering)) = true
  /\ inflight (step Scenario.registering (Toggle MicGranted))
     = inflight Scenario.registering.
Proof.
  assert (Hon : isActive (react (world Scenario.registering)) = true)
    by (vm_compute; reflexivity).
  split; [exact Hon|].
  apply (@stop_clears_flags_only Scenario.registering MicGranted Hon).
Defined.

(** ** The follow-up prompt *)

Lemma nextStepPrompt_spoken (ty : TaskType) (lang : Lang) :
  truthy (trim (nextStepPrompt ty lang)) = true
  /\ detectLanguage (nextStepPrompt ty lang) = lang.
Proof. destruct ty, lang; split; reflexivity. Qed.

Lemma handleUserInput_resolved_timer (p : Pending) (aiResponse : jsstring)
    (now : Z) (io : IO) (w : World) :
  let w' := exec (handleUserInput_resolved p aiResponse now io) w in
  conversationTimeoutRef (refs w') =
  match currentTask (p_env p) with
  | Some t => if Status_eqb (status t) active
              then Some (ConversationTimer (p_env p))
              else conversationTimeoutRef (refs w)
  | None => conversationTimeoutRef (refs w)
  end.
Proof.
  unfold handleUserInput_resolved, updateTaskContext, speakResponse,
    setConversationTimeout, taskStoreCall, synthSpeak, when, exec, bind,
    getHost.
  destruct (determineTaskType (p_input p)), (currentTask (p_env p));
    split_tests; reflexivity.
Qed.

(** X10. Whether a turn is followed by the spoken next-step prompt is decided
    by the task as the turn found it, not as it left it.  A turn that starts
    with an active task sets the three-second timer, and when the timer
    fires the prompt for that task is queued at the synthesizer in the
    interface language - also when the turn has just completed the task,
    and whether or not the answer is still being spoken.  A turn that starts
    without a task, the one that creates it included, sets no timer. *)
Theorem follow_up_prompt_from_captured_task (m : Machine)
    (input aiResponse : jsstring) (now now' : Z) (io io' : IO) :
  ready m -> isActive (react (world m)) = true ->
  truthy (trim input) = true ->
  speechSynthesis_in_window (host (world m)) = true ->
  let env := react (world m) in
  let m1 := run m [RecognitionResult [(input, true)] now;
                   InferenceResolved 0 aiResponse now' io] in
  let m2 := step m1 (TimerFired (ConversationTimer env) io') in
  match currentTask env with
  | Some t =>
      if Status_eqb (status t) active then
        conversationTimeoutRef (refs (world m1)) = Some (ConversationTimer env)
        /\ currentTask (react (world m1)) = Some (advanceTask t)
        /\ synth (world m2) =
           synth (world m1)
             ++ [{| utext := nextStepPrompt (task_type t) (language env);
                    ulang := language env |}]
      else
        conversationTimeoutRef (refs (world m1)) =
          conversationTimeoutRef (refs (world m))
        /\ synth (world m2) = synth (world m1)
  | None =>
      conversationTimeoutRef (refs (world m1)) =
        conversationTimeoutRef (refs (world m))
      /\ synth (world m2) = synth (world m1)
  end.
Proof.
  intros Hready Hon Htext Hweb. cbv zeta. cbn [run fold_left].
  rewrite (@accepted_transcript m input now Hready Htext).
  destruct Hready as (Hrec & Hproc & Hspk & _).
  assert (Hfree : (isProcessing (react (world m))
                   || isSpeaking (react (world m)))%bool = false)
    by now rewrite Hproc, Hspk.
  pose proof (handleUserInput_free (react (world m)) (trim input) now
                (with_react (with_transcript
                               (shownTranscript [(input, true)])) (world m))
                Hfree) as F.
  cbv zeta in F.
  set (w1 := snd (handleUserInput _ _ _ _)) in *.
  destruct F as (_ & Hh & Hrefs & _).
  cbn [react with_react host refs with_transcript] in *.
  set (p := {| p_env := react (world m); p_input := trim input;
               p_userTurn := userTurnOf (trim input) now |}).
  cbn [step inflight nth_error world remove_nth lift].
  pose proof (handleUserInput_resolved_effect p aiResponse now' io w1) as R.
  pose proof (handleUserInput_resolved_timer p aiResponse now' io w1) as T.
  cbv zeta in R, T.
  set (w2 := exec (handleUserInput_resolved p aiResponse now' io) w1) in *.
  destruct R as (Hh2 & _ & _ & _ & _ & Ht & _).
  cbn [p p_env p_input] in T, Ht. rewrite Hrefs in T.
  unfold conversationTimeout_fired, continueTaskFlow.
  rewrite Hon, Hspk. cbn [andb negb].
  destruct (currentTask (react (world m))) as [t|] eqn:Hcur.
  - destruct (Status_eqb (status t) active) eqn:Hst; cbn [negb].
    + split; [exact T|]. split.
      * rewrite Ht. now destruct (determineTaskType (trim input)).
      * destruct (nextStepPrompt_spoken (task_type t)
                    (language (react (world m)))) as [Hp _].
        assert (Hweb2 : speechSynthesis_in_window (host w2) = true)
          by congruence.
        apply (speakResponse_enqueues _ _ io' w2 Hp Hweb2).
    + split; [exact T | reflexivity].
  - split; [exact T | reflexivity].
Qed.

Lemma follow_up_prompt_from_captured_task_witness :
  let m := run Scenario.started
             (Scenario.turn "register new customer Tanaka" 10000
              ++ Scenario.turn "yes" 20000 ++ Scenario.turn "yes" 30000
              ++ Scenario.turn "yes" 40000) in
  let m1 := run m [RecognitionResult [(lit "yes", true)] 50000;
                   InferenceResolved 0 (lit "OK") 52000 Scenario.io_ok] in
  ready m
  /\ option_map status (currentTask (react (world m1))) = Some completed
  /\ conversationTimeoutRef (refs (world m1))
     = Some (ConversationTimer (react (world m))).
Proof.
  cbv zeta.
  assert (Hr : ready (run Scenario.started
             (Scenario.turn "register new customer Tanaka" 10000
              ++ Scenario.turn "yes" 20000 ++ Scenario.turn "yes" 30000
              ++ Scenario.turn "yes" 40000)))
    by (repeat split; vm_compute; reflexivity).
  split; [exact Hr|]. split; [vm_compute; reflexivity|].
  pose proof (@follow_up_prompt_from_captured_task _ (lit "yes") (lit "OK")
                50000 52000 Scenario.io_ok Scenario.io_ok Hr) as H.
  cbv zeta in H.
  match type of H with
  | _ -> _ -> _ -> match ?c with _ => _ end =>
      assert (Hc : exists t, c = Some t /\ Status_eqb (status t) active = true)
        by (vm_compute; eexists; split; reflexivity);
      destruct Hc as (t & Hc & Hst); rewrite Hc, Hst in H
  end.
  apply H; vm_compute; reflexivity.
Defined.

(* ===================================================================== *)
(** * Properties of the voice panel ([VoiceInterface.tsx]) *)
(* ===================================================================== *)

(** ** The synthesizer *)

Lemma speechOp_last (h : Host) (props : VoicePanel.Props)
    (op : VoicePanel.SpeechOp) (s : VoiceInterface.State) :
  speechSynthesis_in_window h = true ->
  VoicePanel.speechOp h props op s =
  match op with
  | VoicePanel.Speak text =>
      {| VoiceInterface.isSpeaking := true;
         VoiceInterface.synth :=
           [{| utext := text; ulang := VoicePanel.language props |}] |}
  | VoicePanel.StopSpeaking =>
      {| VoiceInterface.isSpeaking := false; VoiceInterface.synth := [] |}
  end.
Proof.
  intros Hweb. destruct op; cbn;
    unfold VoiceInterface.speakResponse, VoicePanel.stopSpeaking;
    now rewrite Hweb.
Qed.

(** X11. In the panel the synthesizer holds what the last call left:
    after any non-empty sequence of [speakResponse] and [stopSpeaking] calls
    the platform queue holds the text of the last call alone if that was a
    [speakResponse] - blank texts included, there is no blank test here - and
    nothing if it was a [stopSpeaking], and [isSpeaking] says which; without
    the Web Speech API neither call changes anything. *)
Theorem panel_speech_last_call_wins (h : Host) (props : VoicePanel.Props)
    (ops : list VoicePanel.SpeechOp) (last_op : VoicePanel.SpeechOp)
    (s : VoiceInterface.State) :
  let s' := fold_left (fun s op => VoicePanel.speechOp h props op s)
                      (ops ++ [last_op]) s in
  if speechSynthesis_in_window h then
    s' = match last_op with
         | VoicePanel.Speak text =>
             {| VoiceInterface.isSpeaking := true;
                VoiceInterface.synth :=
                  [{| utext := text; ulang := VoicePanel.language props |}] |}
         | VoicePanel.StopSpeaking =>
             {| VoiceInterface.isSpeaking := false;
                VoiceInterface.synth := [] |}
         end
  else s' = s.
Proof.
  cbv zeta. rewrite fold_left_app. cbn [fold_left].
  destruct (speechSynthesis_in_window h) eqn:Hweb.
  - now apply speechOp_last.
  - assert (Hno : forall op s0, VoicePanel.speechOp h props op s0 = s0).
    { intros [text|] s0; cbn;
        unfold VoiceInterface.speakResponse, VoicePanel.stopSpeaking;
        now rewrite Hweb. }
    rewrite Hno. clear last_op. revert s.
    induction ops as [|op ops IH]; intros s; cbn; [reflexivity|].
    now rewrite Hno.
Qed.

(** ** Commands *)

(** X12. What a command leaves behind, whichever remote call fails.  For a
    non-blank command: [isProcessing] is cleared in every case; the response
    shown is the generated text if the four awaited calls all resolve and
    the error message in the interface language otherwise - also when only
    the final task update fails and a text had been generated;
    [onTaskCreated] is called exactly when all resolve; no task update is
    sent unless a text was generated, so a command whose inference call
    fails leaves its task row in status processing; and the transcript, the
    typed text and the synthesizer are not touched. *)
Theorem command_outcome (h : Host) (props : VoicePanel.Props)
    (command : jsstring) (now : Z) (r : VoicePanel.Remote)
    (p : VoicePanel.Panel) :
  truthy (trim command) = true ->
  let res := VoicePanel.finish
               (VoicePanel.processCommand h props command now r) p in
  let p' := fst res in
  let calls := snd res in
  let all_resolve :=
    (VoicePanel.auth_ok r && VoicePanel.create_ok r
     && VoicePanel.update_ok r)%bool in
  VoicePanel.isProcessing p' = false
  /\ VoicePanel.response p' =
     match VoicePanel.generated r with
     | Some text => if all_resolve then text
                    else VoicePanel.errorMsg (VoicePanel.language props)
     | None => VoicePanel.errorMsg (VoicePanel.language props)
     end
  /\ (In VoicePanel.OnTaskCreated calls <->
      all_resolve = true /\ VoicePanel.generated r <> None)
  /\ (forall id st la tx, In (VoicePanel.TasksUpdate id st la tx) calls ->
      VoicePanel.generated r = Some tx /\ id = now
      /\ VoicePanel.auth_ok r = true /\ VoicePanel.create_ok r = true)
  /\ VoicePanel.transcript p' = VoicePanel.transcript p
  /\ VoicePanel.textInput p' = VoicePanel.textInput p
  /\ VoicePanel.speech p' = VoicePanel.speech p.
Proof.
  intros Hcmd. cbv zeta.
  unfold VoicePanel.finish, VoicePanel.processCommand.
  rewrite Hcmd. cbn [negb].
  unfold VoicePanel.tryCatchFinally, VoicePanel.andThen, VoicePanel.call,
    VoicePanel.tell, VoicePanel.call, VoicePanel.set, VoicePanel.whenever,
    VoicePanel.done.
  destruct r as [a c g u]. cbn [VoicePanel.auth_ok VoicePanel.create_ok
                                 VoicePanel.generated VoicePanel.update_ok].
  destruct a, c, g as [text|], u; cbn;
    destruct (speechSynthesis_in_window h); cbn;
    try (destruct (truthy text); cbn);
    (split; [reflexivity|]); (split; [reflexivity|]);
    (split; [split; [intros H; repeat (destruct H as [H|H]; try discriminate);
                     try contradiction; try (now split)
                    | intros [H1 H2]; try discriminate;
                      try (now destruct H2); cbn; tauto] |]);
    (split; [intros id st la tx H;
             repeat (destruct H as [H|H]; try discriminate);
             try contradiction;
             injection H as <- <- <- <-; repeat split |]);
    repeat split.
Qed.

Lemma command_outcome_witness :
  let r := {| VoicePanel.auth_ok := true; VoicePanel.create_ok := true;
              VoicePanel.generated := Some (lit "Done");
              VoicePanel.update_ok := false |} in
  let props := {| VoicePanel.language := en;
                  VoicePanel.keigoMode := VoicePanel.casual |} in
  truthy (trim (lit "register customer")) = true
  /\ VoicePanel.response
       (fst (VoicePanel.finish
               (VoicePanel.processCommand Scenario.browser props
                  (lit "register customer") 1000 r)
               (VoicePanel.mounted Scenario.browser)))
     = VoicePanel.errorMsg en.
Proof.
  cbv zeta.
  assert (H : truthy (trim (lit "register customer")) = true)
    by (vm_compute; reflexivity).
  split; [exact H|].
  destruct (@command_outcome Scenario.browser
              {| VoicePanel.language := en;
                 VoicePanel.keigoMode := VoicePanel.casual |}
              (lit "register customer") 1000
              {| VoicePanel.auth_ok := true; VoicePanel.create_ok := true;
                 VoicePanel.generated := Some (lit "Done");
                 VoicePanel.update_ok := false |}
              (VoicePanel.mounted Scenario.browser) H)
    as (_ & Hresp & _).
  exact Hresp.
Defined.

Ltac run_panel :=
  unfold VoicePanel.finish, VoicePanel.handleSubmit, VoicePanel.transcribeAudio,
    VoicePanel.startRecording, VoicePanel.stopRecording,
    VoicePanel.processCommand, VoicePanel.tryCatchFinally, VoicePanel.andThen,
    VoicePanel.tell, VoicePanel.call, VoicePanel.set, VoicePanel.whenever,
    VoicePanel.done.

(** A command never throws: its own [catch] takes every rejection. *)
Lemma processCommand_completes (h : Host) (props : VoicePanel.Props)
    (command : jsstring) (now : Z) (r : VoicePanel.Remote)
    (s : VoicePanel.Panel * list VoicePanel.Call) :
  fst (VoicePanel.processCommand h props command now r s) = Some tt.
Proof.
  run_panel. destruct (negb (truthy (trim command))); [reflexivity|].
  destruct r as [a c g u]. cbn.
  destruct a, c, g as [text|], u; cbn;
    destruct (speechSynthesis_in_window h); cbn;
    try (destruct (truthy text); cbn); reflexivity.
Qed.

(** X13. Submitting: the command is the transcript if there is one, else the
    typed text.  If it is blank nothing happens at all - so a transcript of
    spaces keeps typed text from being submitted; otherwise the command is
    processed and the transcript and the typed text are both cleared - so
    text typed beside a transcript is dropped unprocessed. *)
Theorem submit_takes_transcript_first (h : Host) (props : VoicePanel.Props)
    (now : Z) (r : VoicePanel.Remote) (p : VoicePanel.Panel) :
  let command := if truthy (VoicePanel.transcript p)
                 then VoicePanel.transcript p else VoicePanel.textInput p in
  let processed := VoicePanel.finish
                     (VoicePanel.processCommand h props command now r) p in
  VoicePanel.finish (VoicePanel.handleSubmit h props now r) p =
  if truthy (trim command)
  then (VoicePanel.with_textInput []
          (VoicePanel.with_transcript [] (fst processed)),
        snd processed)
  else (p, []).
Proof.
  cbv zeta. unfold VoicePanel.finish at 1. unfold VoicePanel.handleSubmit.
  cbn [fst snd].
  set (command := if truthy (VoicePanel.transcript p)
                  then VoicePanel.transcript p else VoicePanel.textInput p).
  destruct (truthy (trim command)); [|reflexivity].
  unfold VoicePanel.andThen, VoicePanel.finish.
  pose proof (processCommand_completes h props command now r (p, [])) as Hc.
  destruct (VoicePanel.processCommand h props command now r (p, []))
    as [[[]|] [p1 calls]]; [|discriminate].
  reflexivity.
Qed.

(** X14. Recording.  Without a recognition object and with the microphone
    refused, [startRecording] logs the rejection and changes nothing: the
    panel is not recording and the parent is not told it is active.
    Otherwise starting and then stopping tells the parent active and then
    inactive, stops exactly what was started - the recognizer if there is
    one, else the recorder - and leaves the panel not recording. *)
Theorem recording_start_and_stop (mic : MicOutcome) (p : VoicePanel.Panel) :
  (VoicePanel.recognitionRef p = false ->
   VoicePanel.finish (VoicePanel.startRecording MicDenied) p =
   (p, [VoicePanel.GetUserMedia;
        VoicePanel.ConsoleError (lit "Error starting recording:")]))
  /\ (VoicePanel.recognitionRef p = true \/ mic = MicGranted ->
      let started := VoicePanel.finish (VoicePanel.startRecording mic) p in
      let stopped := VoicePanel.finish VoicePanel.stopRecording (fst started) in
      VoicePanel.isRecording (fst started) = true
      /\ VoicePanel.isRecording (fst stopped) = false
      /\ snd started ++ snd stopped =
         if VoicePanel.recognitionRef p
         then [VoicePanel.OnActiveChange true; VoicePanel.RecognitionStart;
               VoicePanel.RecognitionStop; VoicePanel.OnActiveChange false]
         else [VoicePanel.GetUserMedia; VoicePanel.OnActiveChange true;
               VoicePanel.RecorderStart; VoicePanel.RecorderStop;
               VoicePanel.OnActiveChange false]).
Proof.
  split.
  - intros Hrec. run_panel. cbn. rewrite Hrec. cbn. reflexivity.
  - intros H. cbv zeta. run_panel. cbn.
    destruct (VoicePanel.recognitionRef p) eqn:Hrec; cbn.
    + rewrite Hrec. cbn. repeat split; reflexivity.
    + destruct H as [H | ->]; [discriminate|]. cbn. rewrite Hrec. cbn.
      repeat split; reflexivity.
Qed.

Lemma recording_start_and_stop_witness :
  let p := VoicePanel.mounted plain_browser in
  VoicePanel.recognitionRef p = false
  /\ VoicePanel.isRecording
       (fst (VoicePanel.finish (VoicePanel.startRecording MicDenied) p))
     = false
  /\ VoicePanel.isRecording
       (fst (VoicePanel.finish (VoicePanel.startRecording MicGranted) p))
     = true.
Proof.
  cbv zeta. split; [reflexivity|]. split.
  - rewrite (proj1 (@recording_start_and_stop MicDenied
                      (VoicePanel.mounted plain_browser)) eq_refl).
    reflexivity.
  - apply (proj2 (@recording_start_and_stop MicGranted
                    (VoicePanel.mounted plain_browser))).
    right. reflexivity.
Defined.

(** X15. Transcribing a recording.  [isProcessing] is cleared however it
    ends.  If the transcription call rejects, the error message in the
    interface language is shown and handed to [speakResponse] at once, and
    the transcript is left alone.  If it yields a text, the transcript shows
    it; a blank text goes no further, any other text is processed as a
    command. *)
Theorem transcription_outcome (h : Host) (props : VoicePanel.Props)
    (transcribed : option jsstring) (now : Z) (r : VoicePanel.Remote)
    (p : VoicePanel.Panel) :
  let lang := VoicePanel.language props in
  let res := VoicePanel.finish
               (VoicePanel.transcribeAudio h props transcribed now r) p in
  VoicePanel.isProcessing (fst res) = false
  /\ match transcribed with
     | None =>
         VoicePanel.response (fst res) = VoicePanel.transcriptionErrorMsg lang
         /\ VoicePanel.speech (fst res) =
            VoiceInterface.speakResponse h lang
              (VoicePanel.transcriptionErrorMsg lang) (VoicePanel.speech p)
         /\ VoicePanel.transcript (fst res) = VoicePanel.transcript p
         /\ snd res = [VoicePanel.TranscribeAudio lang;
                       VoicePanel.ConsoleError (lit "Transcription error:")]
     | Some text =>
         VoicePanel.transcript (fst res) = text
         /\ VoicePanel.speech (fst res) = VoicePanel.speech p
         /\ if truthy (trim text)
            then snd res =
                 VoicePanel.TranscribeAudio lang
                 :: snd (VoicePanel.finish
                           (VoicePanel.processCommand h props text now r) p)
                 /\ VoicePanel.response (fst res) =
                    VoicePanel.response
                      (fst (VoicePanel.finish
                              (VoicePanel.processCommand h props text now r) p))
            else snd res = [VoicePanel.TranscribeAudio lang]
                 /\ VoicePanel.response (fst res) = VoicePanel.response p
     end.
Proof.
  cbv zeta. destruct transcribed as [text|].
  - run_panel. cbn. destruct (truthy (trim text)); cbn.
    + destruct r as [a c g u]. cbn.
      destruct a, c, g as [t|], u; cbn;
        destruct (speechSynthesis_in_window h); cbn;
        try (destruct (truthy t); cbn); repeat split; reflexivity.
    + repeat split; reflexivity.
  - run_panel. cbn. repeat split; reflexivity.
Qed.

(* ===================================================================== *)
(** * Properties of the dashboard and the task log *)
(* ===================================================================== *)

Lemma str_eqb_spec (a b : jsstring) : Tasks.str_eqb a b = true <-> a = b.
Proof.
  revert b. induction a as [|x a IH]; intros [|y b]; cbn;
    try (split; [discriminate | discriminate]); [tauto|].
  rewrite andb_true_iff, N.eqb_eq, IH. split.
  - now intros [-> ->].
  - intros H. injection H as -> ->. now split.
Qed.

Lemma filter_length_cons {A} (f : A -> bool) (a : A) (l : list A) :
  List.length (filter f (a :: l)) =
  ((if f a then 1 else 0) + List.length (filter f l))%nat.
Proof. cbn. now destruct (f a). Qed.

(** A task falls under at most one of the three headings, and under one
    exactly when its status is one of the three. *)
Lemma heading_of_task (t : Tasks.Task) :
  let n := ((if Tasks.has_status "pending" t then 1 else 0)
            + (if Tasks.has_status "processing" t then 1 else 0)
            + (if Tasks.has_status "completed" t then 1 else 0))%nat in
  (n <= 1)%nat
  /\ (n = 1%nat <->
      Tasks.status t = lit "pending" \/ Tasks.status t = lit "processing"
      \/ Tasks.status t = lit "completed").
Proof.
  cbv zeta. unfold Tasks.has_status.
  assert (D1 : lit "pending" <> lit "processing") by (vm_compute; discriminate).
  assert (D2 : lit "pending" <> lit "completed") by (vm_compute; discriminate).
  assert (D3 : lit "processing" <> lit "completed")
    by (vm_compute; discriminate).
  destruct (Tasks.str_eqb (Tasks.status t) (lit "pending")) eqn:E1;
    destruct (Tasks.str_eqb (Tasks.status t) (lit "processing")) eqn:E2;
    destruct (Tasks.str_eqb (Tasks.status t) (lit "completed")) eqn:E3;
    try (apply str_eqb_spec in E1); try (apply str_eqb_spec in E2);
    try (apply str_eqb_spec in E3); try congruence;
    (split; [cbn; lia|]);
    (split;
     [ intros Hn; first [tauto | cbn in Hn; discriminate]
     | first [ reflexivity
             | intros [H|[H|H]]; apply str_eqb_spec in H; congruence ] ]).
Qed.

(** X16. The three counters of the dashboard count disjoint sets of tasks:
    pending, processing and completed together never exceed the number of
    tasks, and they add up to it exactly when every task has one of these
    three statuses - a task with any other status (failed, or the active of
    the voice agent) is counted under no heading. *)
Theorem status_counts_partition (tasks : list Tasks.Task) :
  let c := Tasks.getStatusCounts tasks in
  let counted (t : Tasks.Task) :=
    Tasks.status t = lit "pending" \/ Tasks.status t = lit "processing"
    \/ Tasks.status t = lit "completed" in
  (Tasks.pending c + Tasks.processing c + Tasks.completed c
   <= List.length tasks)%nat
  /\ ((Tasks.pending c + Tasks.processing c + Tasks.completed c
       = List.length tasks)%nat <-> Forall counted tasks).
Proof.
  cbv zeta. unfold Tasks.getStatusCounts.
  cbn [Tasks.pending Tasks.processing Tasks.completed].
  induction tasks as [|t tasks [IHle IHeq]].
  - cbn. split; [lia | split; [constructor | reflexivity]].
  - rewrite !filter_length_cons. cbn [List.length].
    destruct (heading_of_task t) as [Hle Hone]. cbv zeta in Hle, Hone.
    split; [lia|]. rewrite Forall_cons_iff, <- IHeq, <- Hone. lia.
Qed.

(** X17. The age shown for a task is read off the elapsed milliseconds
    alone: under a minute - a date in the future included - it is "just
    now"; under an hour the whole minutes elapsed, 1 to 59; under a day the
    whole hours, 1 to 23; from then on the whole days. *)
Theorem getTimeAgo_brackets (language : Lang) (now date : Z) :
  let d := now - date in
  Tasks.getTimeAgo language now date =
    (if d <? 60000 then Tasks.justNow language
     else if d <? 3600000
          then Tasks.decimal (d / 60000) ++ Tasks.unitAgo language 60000
     else if d <? 86400000
          then Tasks.decimal (d / 3600000) ++ Tasks.unitAgo language 3600000
     else Tasks.decimal (d / 86400000) ++ Tasks.unitAgo language 86400000)
  /\ (60000 <= d < 3600000 -> 1 <= d / 60000 <= 59)
  /\ (3600000 <= d < 86400000 -> 1 <= d / 3600000 <= 23)
  /\ (86400000 <= d -> 1 <= d / 86400000).
Proof.
  cbv zeta. set (d := now - date).
  assert (Hh : d / 60000 / 60 = d / 3600000)
    by (rewrite Z.div_div by lia; reflexivity).
  assert (Hd : d / 60000 / 60 / 24 = d / 86400000)
    by (rewrite !Z.div_div by lia; reflexivity).
  split.
  - unfold Tasks.getTimeAgo. fold d. rewrite Hd, Hh.
    destruct (Z.ltb_spec (d / 60000) 1), (Z.ltb_spec d 60000);
      try (exfalso; Z.div_mod_to_equations; lia).
    + now destruct language.
    + destruct (Z.ltb_spec (d / 60000) 60), (Z.ltb_spec d 3600000);
        try (exfalso; Z.div_mod_to_equations; lia).
      * now destruct language.
      * destruct (Z.ltb_spec (d / 3600000) 24), (Z.ltb_spec d 86400000);
          try (exfalso; Z.div_mod_to_equations; lia);
          now destruct language.
  - repeat split; Z.div_mod_to_equations; lia.
Qed.

Lemma getTimeAgo_brackets_witness :
  (60000 <= 7500000 - 0 < 3600000 -> 1 <= (7500000 - 0) / 60000 <= 59)
  /\ Tasks.getTimeAgo en 7500000 0 = lit "2h ago".
Proof.
  destruct (getTimeAgo_brackets en 7500000 0) as (Heq & Hm & _).
  split; [exact Hm|]. rewrite Heq. vm_compute. reflexivity.
Defined.

Lemma includes_empty (s : jsstring) : includes s [] = true.
Proof. destruct s; reflexivity. Qed.

(** X18. An empty search box hides nothing: the task log then shows, in
    their order, all the tasks when the filter is "all", and exactly the
    tasks whose status equals the filter otherwise. *)
Theorem empty_search_shows_by_status (filter_ : jsstring)
    (tasks : list Tasks.Task) :
  Tasks.filteredTasks filter_ [] tasks =
  if Tasks.str_eqb filter_ (lit "all") then tasks
  else filter (fun t => Tasks.str_eqb (Tasks.status t) filter_) tasks.
Proof.
  unfold Tasks.filteredTasks. cbn [toLowerCase map].
  destruct (Tasks.str_eqb filter_ (lit "all")).
  - match goal with |- filter ?f _ = _ => set (keep := f) end.
    assert (Hall : forall t, keep t = true)
      by (intros t; unfold keep; now rewrite includes_empty).
    induction tasks as [|t tasks IH]; [reflexivity|].
    cbn [filter]. now rewrite Hall, IH.
  - apply filter_ext. intros t. rewrite includes_empty. cbn.
    now rewrite andb_true_r.
Qed.

(* ===================================================================== *)
(** * Properties of the agent cards *)
(* ===================================================================== *)

Lemma str_eqb_refl (a : jsstring) : Tasks.str_eqb a a = true.
Proof. now apply str_eqb_spec. Qed.

(** X19. Running an agent always releases its card.  Whichever remote call
    fails, and also when none does, at the end no agent is shown as running,
    the progress of the agent run is back at 0 and the progress kept for the
    other agents is as it was.  The progress shown on the way is 0, 10, ...,
    100 if the task was created and noted, stops at 50 if the note at 50
    fails, and stays at 0 if signing in or creating the task fails; and
    [onTaskCreated] is called exactly when all four calls resolve. *)
Theorem agent_card_released (language : Lang) (agentId : jsstring) (now : Z)
    (r : AgentCards.Remote) (c : AgentCards.Cards) :
  let res := AgentCards.finish
               (AgentCards.executeAgent language agentId now r) c in
  let started := (AgentCards.auth_ok r && AgentCards.create_ok r)%bool in
  AgentCards.activeAgent (fst res) = None
  /\ AgentCards.agentProgress (fst res) agentId = Some 0
  /\ (forall k, Tasks.str_eqb k agentId = false ->
                AgentCards.agentProgress (fst res) k
                = AgentCards.agentProgress c k)
  /\ AgentCards.shown (snd res) =
     0 :: (if started
           then if AgentCards.note_ok r then AgentCards.loopValues
                else [0; 10; 20; 30; 40; 50]
           else [])
       ++ [0]
  /\ (In AgentCards.OnTaskCreated (snd res) <->
      (started && AgentCards.note_ok r && AgentCards.complete_ok r)%bool
      = true).
Proof.
  cbv zeta. destruct r as [a cr n co].
  cbn [AgentCards.auth_ok AgentCards.create_ok AgentCards.note_ok
       AgentCards.complete_ok].
  unfold AgentCards.finish, AgentCards.executeAgent,
    AgentCards.tryCatchFinally.
  set (name := AgentCards.agentName language agentId).
  clearbody name.
  destruct a, cr, n, co; lazy -[Tasks.str_eqb];
    rewrite ?str_eqb_refl;
    (split; [reflexivity|]); (split; [reflexivity|]);
    (split; [intros k Hk; now rewrite ?Hk|]);
    (split; [reflexivity|]);
    (split; [ intros H; repeat (destruct H as [H|H]; try discriminate);
              try contradiction; reflexivity
            | intros H; try discriminate; tauto ]).
Qed.

(* ===================================================================== *)
(** * The autonomous agent without a recognizer, and after [stop()] *)
(* ===================================================================== *)

Lemma toggleAgent_recognitionRef (env : State) (mic : MicOutcome) (w : World) :
  recognitionRef (refs (exec (toggleAgent env mic) w)) =
  (recognitionRef (refs w)
   || (negb (isActive env) && speechRecognition_in_window (host w)))%bool.
Proof.
  unfold toggleAgent, initializeAudioVisualization,
    initializeSpeechRecognition, when, exec, bind, getHost, getRefs.
  destruct w as [[syn rec cb] st [r s a pt ct] sy lg].
  destruct mic, (isActive env), rec, r, s, a, pt, ct; reflexivity.
Qed.

(** What [stop()] does to the cells that a later turn reads. *)
Lemma stop_effect (m : Machine) (mic : MicOutcome) :
  isActive (react (world m)) = true ->
  let m' := step m (Toggle mic) in
  react (world m') =
    with_isProcessing false
      (with_isSpeaking false
         (with_isListening false (with_isActive false (react (world m)))))
  /\ refs (world m') = refs (world m)
  /\ host (world m') = host (world m)
  /\ synth (world m') = synth (world m)
  /\ inflight m' = inflight m
  /\ dispatched (log (world m')) = dispatched (log (world m)).
Proof.
  intros Hon. cbv zeta.
  pose proof (toggleAgent_frame (react (world m)) mic (world m)) as T.
  cbv zeta in T. destruct T as (_ & _ & _ & _ & _ & _ & _ & Hd).
  split; [|split; [|split; [|split; [|split; [reflexivity | exact Hd]]]]];
    cbn; unfold toggleAgent; rewrite Hon;
    unfold when, exec, bind, getRefs; cbn;
    destruct (recognitionRef (refs (world m))),
      (streamRef (refs (world m))), (audioContextRef (refs (world m))),
      (processingTimeoutRef (refs (world m))),
      (conversationTimeoutRef (refs (world m))); reflexivity.
Qed.

(** What a browser without speech recognition keeps at every event. *)
Lemma deaf_step (m : Machine) (ev : Event) :
  speechRecognition_in_window (host (world m)) = false ->
  recognitionRef (refs (world m)) = false ->
  inflight m = [] ->
  host (world (step m ev)) = host (world m)
  /\ recognitionRef (refs (world (step m ev))) = false
  /\ inflight (step m ev) = []
  /\ conversation (react (world (step m ev))) = conversation (react (world m))
  /\ dispatched (log (world (step m ev))) = dispatched (log (world m)).
Proof.
  intros Hno Hrec Hnil.
  destruct ev as [mic | results now | env results now | i a now io | i io
                  | | | t io];
    cbn [step].
  - pose proof (toggleAgent_frame (react (world m)) mic (world m)) as T.
    pose proof (toggleAgent_recognitionRef (react (world m)) mic (world m))
      as R.
    cbv zeta in T. destruct T as (Hh & _ & _ & Hc & _ & _ & _ & Hd).
    cbn [lift world inflight]. rewrite R, Hrec, Hno, andb_false_r.
    repeat split; assumption.
  - rewrite Hrec. repeat split; assumption.
  - rewrite Hrec. repeat split; assumption.
  - rewrite Hnil. destruct i; cbn; repeat split; assumption.
  - rewrite Hnil. destruct i; cbn; repeat split; assumption.
  - destruct (synth (world m)); cbn; repeat split; assumption.
  - cbn. repeat split; assumption.
  - destruct t as [message lang | env]; cbn [step lift world inflight].
    + pose proof (speakResponse_frame message lang io (world m)) as S.
      cbv zeta in S. unfold welcomeTimeout_fired.
      destruct S as (Hh & Hr & _ & _ & Hc & _ & _ & _ & Hd).
      rewrite Hh, Hr, Hc, Hd. repeat split; assumption.
    + unfold conversationTimeout_fired.
      destruct (isActive env && negb (isSpeaking env))%bool.
      * pose proof (continueTaskFlow_frame env io (world m)) as S.
        cbv zeta in S. destruct S as (Hh & Hr & _ & _ & Hc & _ & _ & _ & Hd).
        rewrite Hh, Hr, Hc, Hd. repeat split; assumption.
      * cbn. repeat split; assumption.
Qed.

(** X20. In a browser without speech recognition the agent can be switched
    on - it sets [isActive] and announces that it is active - but it never
    takes a turn: whatever happens after mounting, no recognition object
    exists, nothing is handed to inference and the conversation stays
    empty. *)
Theorem no_recognizer_no_turn (h : Host) (mic : MicOutcome) (evs : list Event) :
  speechRecognition_in_window h = false ->
  let m1 := step (mount h) (Toggle mic) in
  let m := run (mount h) evs in
  (isActive (react (world m1)) = true
   /\ In (SetTimeout (WelcomeTimer (welcomeMessage ja) ja) 1000)
         (log (world m1)))
  /\ recognitionRef (refs (world m)) = false
  /\ dispatched (log (world m)) = []
  /\ conversation (react (world m)) = []
  /\ inflight m = [].
Proof.
  intros Hno. cbv zeta. split.
  - destruct h as [syn rec cb]. cbn in Hno. subst rec.
    destruct mic; (split; [reflexivity|]); vm_compute;
      repeat ((left; reflexivity) || right).
  - assert (H : forall evs m,
              speechRecognition_in_window (host (world m)) = false ->
              recognitionRef (refs (world m)) = false ->
              inflight m = [] ->
              recognitionRef (refs (world (run m evs))) = false
              /\ dispatched (log (world (run m evs)))
                 = dispatched (log (world m))
              /\ conversation (react (world (run m evs)))
                 = conversation (react (world m))
              /\ inflight (run m evs) = []).
    { clear evs. induction evs as [|ev evs IH]; intros m H1 H2 H3.
      - repeat split; assumption.
      - cbn [run fold_left].
        destruct (@deaf_step m ev H1 H2 H3) as (Hh & Hr & Hf & Hc & Hd).
        rewrite <- Hh in H1.
        destruct (IH (step m ev) H1 Hr Hf) as (A & B & C & D).
        unfold run in *. rewrite A, B, C, D, Hc, Hd. repeat split. }
    apply (H evs (mount h)); [exact Hno | reflexivity | reflexivity].
Qed.

Lemma no_recognizer_no_turn_witness :
  speechRecognition_in_window plain_browser = false
  /\ dispatched
       (log (world (run (mount plain_browser)
                        [Toggle MicGranted;
                         Scenario.said "register new customer Tanaka" 10000])))
     = [].
Proof.
  split; [reflexivity|].
  apply (@no_recognizer_no_turn plain_browser MicGranted
           [Toggle MicGranted;
            Scenario.said "register new customer Tanaka" 10000]).
  reflexivity.
Defined.

Lemma handleUserInput_resolved_spoken (p : Pending) (aiResponse : jsstring)
    (now : Z) (io : IO) (w : World) :
  truthy (trim aiResponse) = true ->
  speechSynthesis_in_window (host w) = true ->
  synth (exec (handleUserInput_resolved p aiResponse now io) w) =
  synth w ++ [{| utext := aiResponse; ulang := turn_language (p_userTurn p) |}].
Proof.
  intros Ht Hs. destruct w as [[syn rec cb] st rf sy lg].
  cbn in Hs. subst syn.
  unfold handleUserInput_resolved, updateTaskContext, speakResponse,
    setConversationTimeout, taskStoreCall, synthSpeak, when, exec, bind,
    getHost.
  rewrite Ht.
  destruct (determineTaskType (p_input p)), (currentTask (p_env p));
    split_tests; reflexivity.
Qed.

(** X21. [handleUserInput] does not look at [isActive].  A final transcript
    that the recognizer delivers after [stop()] is taken like any other: the
    user turn is logged and the call is made while the agent is idle, and
    when the response arrives it is logged and handed to the synthesizer,
    the agent still being idle. *)
Theorem turn_after_stop (m : Machine) (mic : MicOutcome)
    (input aiResponse : jsstring) (now now' : Z) (io : IO) :
  ready m -> isActive (react (world m)) = true ->
  truthy (trim input) = true -> truthy (trim aiResponse) = true ->
  speechSynthesis_in_window (host (world m)) = true ->
  let text := trim input in
  let lang := detectLanguage text in
  let stopped := step m (Toggle mic) in
  let m1 := step stopped (RecognitionResult [(input, true)] now) in
  let m2 := step m1 (InferenceResolved 0 aiResponse now' io) in
  phase (react (world stopped)) = idle
  /\ dispatched (log (world m1)) = dispatched (log (world m)) ++ [text]
  /\ phase (react (world m2)) = idle
  /\ conversation (react (world m2)) =
     conversation (react (world m))
       ++ [userTurnOf text now; agentTurnOf aiResponse lang now']
  /\ exists q, synth (world m2) =
               q ++ [{| utext := aiResponse; ulang := lang |}].
Proof.
  intros (Hrec & Hproc & Hspk & Hnil) Hon Htext Hresp Hweb. cbv zeta.
  destruct (@stop_effect m mic Hon) as (Hreact & Hrefs & Hh & _ & Hfl & Hd).
  set (stopped := step m (Toggle mic)) in *.
  assert (Hready : ready stopped).
  { unfold ready. rewrite Hrefs, Hreact, Hfl. cbn. repeat split; assumption. }
  assert (Hoff : isActive (react (world stopped)) = false)
    by (rewrite Hreact; reflexivity).
  split; [unfold phase; now rewrite Hoff|].
  rewrite (@accepted_transcript stopped input now Hready Htext).
  assert (Hfree : (isProcessing (react (world stopped))
                   || isSpeaking (react (world stopped)))%bool = false)
    by (rewrite Hreact; reflexivity).
  pose proof (handleUserInput_free (react (world stopped)) (trim input) now
                (with_react (with_transcript
                               (shownTranscript [(input, true)]))
                            (world stopped))
                Hfree) as F.
  cbv zeta in F.
  set (w1 := snd (handleUserInput _ _ _ _)) in *.
  destruct F as (_ & Hh1 & _ & _ & Hact1 & _ & _ & Hconv1 & _ & Hd1 & _).
  cbn [react with_react host conversation isActive with_transcript log world]
    in *.
  split; [now rewrite Hd1, Hd|].
  set (p := {| p_env := react (world stopped); p_input := trim input;
               p_userTurn := userTurnOf (trim input) now |}).
  cbn [step inflight nth_error world remove_nth].
  pose proof (handleUserInput_resolved_effect p aiResponse now' io w1) as R.
  cbv zeta in R.
  destruct R as (_ & Hact2 & _ & Hconv2 & _).
  split; [unfold phase; now rewrite Hact2, Hact1, Hoff|].
  split.
  - rewrite Hconv2, Hconv1, Hreact. cbn. now rewrite <- app_assoc.
  - exists (synth w1).
    apply (@handleUserInput_resolved_spoken p aiResponse now' io w1 Hresp).
    now rewrite Hh1, Hh.
Qed.

Lemma turn_after_stop_witness :
  ready Scenario.started
  /\ phase (react (world
       (step (step (step Scenario.started (Toggle MicGranted))
                   (Scenario.said "send the email" 10000))
             (Scenario.answered "OK" 12000)))) = idle.
Proof.
  assert (Hready : ready Scenario.started)
    by (repeat split; vm_compute; reflexivity).
  assert (Hon : isActive (react (world Scenario.started)) = true)
    by (vm_compute; reflexivity).
  assert (Hin : truthy (trim (lit "send the email")) = true)
    by (vm_compute; reflexivity).
  assert (Hout : truthy (trim (lit "OK")) = true)
    by (vm_compute; reflexivity).
  assert (Hweb : speechSynthesis_in_window (host (world Scenario.started))
                 = true) by (vm_compute; reflexivity).
  split; [exact Hready|].
  destruct (@turn_after_stop Scenario.started MicGranted
              (lit "send the email") (lit "OK") 10000 12000 Scenario.io_ok
              Hready Hon Hin Hout Hweb) as (_ & _ & Hidle & _).
  exact Hidle.
Defined.

(* ===================================================================== *)
(** * The panel's recognizer *)
(* ===================================================================== *)

(** X22. The panel has no busy guard.  A recognition event with a non-blank
    final part starts a command whatever the panel is doing, also while
    [isProcessing] is set: the account is asked for first, the command sent
    to inference once the task row is created is the final part alone,
    untrimmed, while the transcript shown is the final part followed by the
    interim part; and [isProcessing] is cleared when this command is over,
    whether or not another one set it. *)
Theorem panel_final_always_processed (h : Host) (props : VoicePanel.Props)
    (results : ResultList) (now : Z) (r : VoicePanel.Remote)
    (p : VoicePanel.Panel) :
  truthy (trim (finalTranscript results)) = true ->
  let final := finalTranscript results in
  let res := VoicePanel.finish
               (VoicePanel.recognition_onresult h props results now r) p in
  VoicePanel.transcript (fst res) = final ++ interimTranscript results
  /\ VoicePanel.isProcessing (fst res) = false
  /\ hd_error (snd res) = Some VoicePanel.AuthMe
  /\ (In (VoicePanel.GenerateText final (VoicePanel.language props)
            (VoicePanel.keigoMode props) 150) (snd res)
      <-> (VoicePanel.auth_ok r && VoicePanel.create_ok r)%bool = true).
Proof.
  intros Hfinal. cbv zeta.
  unfold VoicePanel.recognition_onresult. run_panel.
  rewrite Hfinal. destruct r as [a c g u]. cbn.
  destruct a, c, g as [text|], u; cbn;
    destruct (speechSynthesis_in_window h); cbn;
    try (destruct (truthy text); cbn);
    (split; [reflexivity|]); (split; [reflexivity|]);
    (split; [reflexivity|]);
    (split; [ intros H; repeat (destruct H as [H|H]; try discriminate);
              try contradiction; reflexivity
            | intros H; try discriminate; auto 10 ]).
Qed.

Lemma panel_final_always_processed_witness :
  truthy (trim (finalTranscript [(lit "check the line", true)])) = true
  /\ hd_error
       (snd (VoicePanel.finish
               (VoicePanel.recognition_onresult Scenario.browser
                  {| VoicePanel.language := en;
                     VoicePanel.keigoMode := VoicePanel.formal |}
                  [(lit "check the line", true)] 0
                  {| VoicePanel.auth_ok := true; VoicePanel.create_ok := true;
                     VoicePanel.generated := Some (lit "OK");
                     VoicePanel.update_ok := true |})
               (VoicePanel.with_isProcessing true
                  (VoicePanel.mounted Scenario.browser))))
     = Some VoicePanel.AuthMe.
Proof.
  assert (H : truthy (trim (finalTranscript [(lit "check the line", true)]))
              = true) by (vm_compute; reflexivity).
  split; [exact H|].
  destruct (@panel_final_always_processed Scenario.browser
              {| VoicePanel.language := en;
                 VoicePanel.keigoMode := VoicePanel.formal |}
              [(lit "check the line", true)] 0
              {| VoicePanel.auth_ok := true; VoicePanel.create_ok := true;
                 VoicePanel.generated := Some (lit "OK");
                 VoicePanel.update_ok := true |}
              (VoicePanel.with_isProcessing true
                  (VoicePanel.mounted Scenario.browser)) H)
    as (_ & _ & Hhd & _).
  exact Hhd.
Defined.

(* ===================================================================== *)
(** * The bound on the step index *)
(* ===================================================================== *)

Lemma newTask_within_steps (ty : TaskType) (lang : Lang) (now : Z) :
  within_steps (Some (newTask ty lang now)).
Proof. destruct ty, lang; vm_compute; discriminate. Qed.

Lemma advanceTask_within_steps (t : TaskContext) :
  within_steps (Some (advanceTask t)).
Proof. unfold within_steps, advanceTask. cbn [currentStep steps]. lia. Qed.

Lemma step_within_steps (m : Machine) (ev : Event) :
  within_steps (currentTask (react (world m))) ->
  within_steps (currentTask (react (world (step m ev)))).
Proof.
  intros Hm.
  assert (Hhear : forall env results now,
            within_steps (currentTask (react (world
              (step m (RecognitionResultOf env results now)))))).
  { intros env results now. cbn [step].
    destruct (recognitionRef (refs (world m))); [|exact Hm].
    rewrite recognition_onresult_unfold.
    set (w0 := with_react _ (world m)).
    destruct (truthy (trim (finalTranscript results))); [|exact Hm].
    destruct (isProcessing env || isSpeaking env)%bool eqn:Hbusy.
    - rewrite handleUserInput_busy by exact Hbusy. exact Hm.
    - pose proof (handleUserInput_free env (trim (finalTranscript results))
                    now w0 Hbusy) as F.
      cbv zeta in F.
      destruct (handleUserInput env (trim (finalTranscript results)) now w0)
        as [r w1].
      cbn [fst snd] in F.
      destruct F as (_ & _ & _ & _ & _ & _ & _ & _ & Ht & _).
      cbn [world]. rewrite Ht. exact Hm. }
  destruct ev as [mic | results now | env results now | i a now io | i io
                  | | | t io];
    [ | rewrite live_recognition_result; apply Hhear | apply Hhear | .. ];
    cbn [step].
  - pose proof (toggleAgent_frame (react (world m)) mic (world m)) as T.
    cbv zeta in T. destruct T as (_ & _ & _ & _ & Ht & _).
    cbn [lift world]. now rewrite Ht.
  - destruct (nth_error (inflight m) i) as [p|]; [|exact Hm].
    pose proof (handleUserInput_resolved_effect p a now io (world m)) as R.
    cbv zeta in R. destruct R as (_ & _ & _ & _ & _ & Ht & _).
    cbn [world]. rewrite Ht.
    destruct (determineTaskType (p_input p)), (currentTask (p_env p));
      auto using newTask_within_steps, advanceTask_within_steps.
  - destruct (nth_error (inflight m) i) as [p|]; [|exact Hm].
    pose proof (handleUserInput_rejected_effect p io (world m)) as R.
    cbv zeta in R. destruct R as (_ & _ & _ & _ & _ & Ht & _).
    cbn [world]. now rewrite Ht.
  - destruct (synth (world m)); exact Hm.
  - exact Hm.
  - destruct t as [message lang | env]; cbn [step lift world].
    + pose proof (speakResponse_frame message lang io (world m)) as S.
      cbv zeta in S. destruct S as (_ & _ & _ & _ & _ & Ht & _).
      unfold welcomeTimeout_fired. now rewrite Ht.
    + unfold conversationTimeout_fired.
      destruct (isActive env && negb (isSpeaking env))%bool; [|exact Hm].
      pose proof (continueTaskFlow_frame env io (world m)) as S.
      cbv zeta in S. destruct S as (_ & _ & _ & _ & _ & Ht & _).
      now rewrite Ht.
Qed.

(** X23. The step index never passes the last step.  In every run of a
    mounted component - whatever render each recognition object, suspended
    call and timer closes over, and in whatever order responses arrive - the
    task held, if any, has [currentStep <= steps.length - 1]; and a task as
    created has four or five steps and starts at index 0. *)
Theorem step_index_bounded (h : Host) (evs : list Event) :
  within_steps (currentTask (react (world (run (mount h) evs))))
  /\ forall ty lang now,
       currentStep (newTask ty lang now) = 0
       /\ 4 <= length_of (steps (newTask ty lang now)) <= 5.
Proof.
  split.
  - assert (H : forall evs m,
              within_steps (currentTask (react (world m))) ->
              within_steps (currentTask (react (world (run m evs))))).
    { clear evs. induction evs as [|ev evs IH]; intros m Hm; [exact Hm|].
      cbn [run fold_left]. apply IH. now apply step_within_steps. }
    apply H. exact I.
  - intros ty lang now. split; [reflexivity|].
    destruct ty, lang; vm_compute; split; discriminate.
Qed.
